(** * JOS kernel monitor (kern/monitor.c) and file-server client (lib/file.c)

    A shallow embedding of the two translation units and the properties of
    their specification.  C objects are modelled as follows.

    - [uint32_t] and [size_t] values are integers in [0, 2^32); every
      operation that can leave that range is followed by [wrap32].  [int]
      values are integers in [-2^31, 2^31); [sint32] is the conversion to
      [int].
    - A C string is the Rocq string of the characters before its
      terminator.  Format strings are kept as the source text spells them
      (escape sequences are not expanded).
    - [cprintf] is recorded, not rendered: the console holds the format
      string and the argument values of every call, oldest first.
    - A function that can [panic], dereference a null pointer, wait for
      input that never comes or loop without end yields [Stopped] with the
      reason and the state reached; otherwise [Done] with its return value
      and the state it leaves. *)

From Stdlib Require Import ZArith Lia List String Ascii Bool.
From Stdlib Require Strings.Byte.
Import ListNotations.
Local Open Scope string_scope.
Local Open Scope Z_scope.

(** ** Machine integers *)

Definition wrap32 (z : Z) : Z := z mod 2 ^ 32.

Definition sint32 (z : Z) : Z := (z + 2 ^ 31) mod 2 ^ 32 - 2 ^ 31.

Definition is_uint32 (z : Z) : Prop := 0 <= z < 2 ^ 32.

(** ** Outcomes and the state monad with stops *)

Inductive Stop : Type :=
| Panic (msg : string)   (* panic(msg), also a failed assert *)
| NullDeref              (* a field read through a null pointer *)
| AwaitInput             (* readline blocked: the operator typed nothing more *)
| OutOfFuel.             (* the loop budget of the model ran out *)

Inductive Outcome (S A : Type) : Type :=
| Done (a : A) (s : S)
| Stopped (why : Stop) (s : S).

Arguments Done {S A} a s.
Arguments Stopped {S A} why s.

Definition M (S A : Type) : Type := S -> Outcome S A.

Definition ret {S A} (a : A) : M S A := fun s => Done a s.

Definition bind {S A B} (c : M S A) (k : A -> M S B) : M S B :=
  fun s => match c s with
           | Done a s' => k a s'
           | Stopped why s' => Stopped why s'
           end.

Definition stop {S A} (why : Stop) : M S A := fun s => Stopped why s.

Definition panic {S A} (msg : string) : M S A := stop (Panic msg).

Definition gets {S A} (f : S -> A) : M S A := fun s => Done (f s) s.

Definition modify {S} (f : S -> S) : M S unit := fun s => Done tt (f s).

Declare Scope mon_scope.
Delimit Scope mon_scope with mon.
Notation "x <- c ;; k" := (bind c (fun x => k))
  (at level 61, c at next level, right associativity) : mon_scope.
Notation "c ;; k" := (bind c (fun _ => k))
  (at level 61, right associativity) : mon_scope.
Local Open Scope mon_scope.

(** Arguments of a [cprintf] call. *)
Inductive Arg : Type :=
| AInt (z : Z)
| AStr (s : string).

(** ** kern/monitor.c *)

Module Monitor.

(** Modelled from the spec: [struct Trapframe] (inc/trap.h) is not among the
    sources.  The specification's execution context has a program counter,
    a flags register, a saved frame pointer and a trap cause; the source
    names two of them, [tf_trapno] and [tf_eflags]. *)
Record Trapframe : Type := mkTrapframe {
  tf_ebp : Z;
  tf_trapno : Z;
  tf_eip : Z;
  tf_eflags : Z
}.

(** Modelled from the spec: [struct Eipdebuginfo] (kern/kdebug.h) is not
    among the sources.  The specification's symbol info has a source file,
    a line number, a function name with its explicit length and the
    function's start address; the field names are those [mon_backtrace]
    reads. *)
Record Eipdebuginfo : Type := mkEipdebuginfo {
  eip_file : string;
  eip_line : Z;
  eip_fn_name : string;
  eip_fn_namelen : Z;
  eip_fn_addr : Z
}.

Inductive Out : Type :=
| Cprintf (fmt : string) (args : list Arg)
| PrintTrapframe (tf : Trapframe).

(** The state the monitor works on.  [m_tf] is the object behind the [tf]
    pointer every handler receives ([None] when the pointer is null):
    handlers mutate it in place, so it lives in the state. *)
Record Machine : Type := mkMachine {
  m_tf : option Trapframe;
  m_console : list Out;
  m_mem : Z -> Z;      (* the 32-bit word stored at an address *)
  m_ebp : Z            (* what read_ebp() returns *)
}.

Definition Mon : Type -> Type := M Machine.

Definition cprintf (fmt : string) (args : list Arg) : Mon unit :=
  modify (fun m => mkMachine (m_tf m) (m_console m ++ [Cprintf fmt args])%list
                             (m_mem m) (m_ebp m)).

Definition print_trapframe (tf : Trapframe) : Mon unit :=
  modify (fun m => mkMachine (m_tf m) (m_console m ++ [PrintTrapframe tf])%list
                             (m_mem m) (m_ebp m)).

(** [tf->field]: reading through the pointer. *)
Definition deref_tf : Mon Trapframe :=
  fun m => match m_tf m with
           | Some tf => Done tf m
           | None => Stopped NullDeref m
           end.

Definition set_eflags (tf : Trapframe) (eflags : Z) : Trapframe :=
  mkTrapframe (tf_ebp tf) (tf_trapno tf) (tf_eip tf) eflags.

(** [tf->tf_eflags = eflags]. *)
Definition store_eflags (eflags : Z) : Mon unit :=
  fun m => match m_tf m with
           | Some tf => Done tt (mkMachine (Some (set_eflags tf eflags))
                                           (m_console m) (m_mem m) (m_ebp m))
           | None => Stopped NullDeref m
           end.

(** [*(uint32_t * )(a)] for a [uint32_t] address expression [a]. *)
Definition load (mem : Z -> Z) (a : Z) : Z := mem (wrap32 a).

Definition read_ebp : Mon Z := gets m_ebp.

Definition CMDBUF_SIZE : Z := 80.
Definition MAXARGS : Z := 16.

(** [strchr(WHITESPACE, c)] is non-null, for a character [c] other than the
    terminator; WHITESPACE is "\t\r\n ". *)
Definition is_whitespace (c : ascii) : bool :=
  (Ascii.eqb c "009" || Ascii.eqb c "013" || Ascii.eqb c "010" || Ascii.eqb c " ")%char.

(** The handlers a [struct Command] can point at. *)
Inductive Handler : Type :=
| H_mon_help | H_mon_kerninfo | H_mon_backtrace | H_mon_step | H_mon_exitstep.

Record Command : Type := mkCommand {
  name : string;
  desc : string;
  func : Handler
}.

Definition commands : list Command :=
  [ mkCommand "help" "Display this list of commands" H_mon_help;
    mkCommand "kerninfo" "Display information about the kernel" H_mon_kerninfo;
    mkCommand "backtrace" "Display all stack frames" H_mon_backtrace;
    mkCommand "step" "Single step when already in debugging console" H_mon_step;
    mkCommand "exitstep" "Exit single stepping" H_mon_exitstep ].

Section Kernel.

(** Trap numbers of inc/trap.h, which is not among the sources. *)
Variables T_DEBUG T_BRKPT : Z.

(** [debuginfo_eip(addr, &info)] of kern/kdebug.c: [None] when it returns a
    negative value. *)
Variable debuginfo_eip : Z -> option Eipdebuginfo.

(** Linker symbols and KERNBASE, printed by [mon_kerninfo]. *)
Variables _start entry etext edata end_ KERNBASE : Z.

(** ROUNDUP of inc/types.h, which is not among the sources: [a] rounded up
    to a multiple of [n].  The macro computes in [uint32_t] and converts the
    result to the type of [a], which is [int] where [mon_kerninfo] uses
    it. *)
Definition ROUNDUP (a n : Z) : Z :=
  let x := wrap32 (wrap32 a + wrap32 n - 1) in
  sint32 (x - x mod wrap32 n).

Definition mon_help (argc : Z) (argv : list string) : Mon Z :=
  (fix loop (cs : list Command) : Mon Z :=
     match cs with
     | [] => ret 0
     | c :: cs' => cprintf "%s - %s\n" [AStr (name c); AStr (desc c)] ;; loop cs'
     end) commands.

Definition mon_kerninfo (argc : Z) (argv : list string) : Mon Z :=
  cprintf "Special kernel symbols:\n" [] ;;
  cprintf "  _start                  %08x (phys)\n" [AInt _start] ;;
  cprintf "  entry  %08x (virt)  %08x (phys)\n" [AInt entry; AInt (wrap32 (entry - KERNBASE))] ;;
  cprintf "  etext  %08x (virt)  %08x (phys)\n" [AInt etext; AInt (wrap32 (etext - KERNBASE))] ;;
  cprintf "  edata  %08x (virt)  %08x (phys)\n" [AInt edata; AInt (wrap32 (edata - KERNBASE))] ;;
  cprintf "  end    %08x (virt)  %08x (phys)\n" [AInt end_; AInt (wrap32 (end_ - KERNBASE))] ;;
  cprintf "Kernel executable memory footprint: %dKB\n"
          [AInt (Z.quot (ROUNDUP (sint32 (end_ - entry)) 1024) 1024)] ;;
  ret 0.

Definition backtrace_fmt : string :=
  "  ebp %08x  eip %08x  args %08x %08x %08x %08x %08x\n         %s:%d: %.*s+%d\n".

(** The arguments of the per-frame [cprintf] of [mon_backtrace]. *)
Definition frame_args (mem : Z -> Z) (ebp : Z) (info : Eipdebuginfo) : list Arg :=
  [ AInt ebp;
    AInt (load mem (ebp + 4));
    AInt (load mem (ebp + 8));
    AInt (load mem (ebp + 12));
    AInt (load mem (ebp + 16));
    AInt (load mem (ebp + 20));
    AInt (load mem (ebp + 24));
    AStr (eip_file info);
    AInt (eip_line info);
    AInt (eip_fn_namelen info);
    AStr (eip_fn_name info);
    AInt (wrap32 (load mem (ebp + 4) - eip_fn_addr info)) ].

(** [while (ebp) { ... ebp = *(uint32_t * )ebp; }].  The walk has no bound
    in the source (a cyclic chain never ends), so the model takes a budget
    of iterations. *)
Fixpoint backtrace_loop (fuel : nat) (ebp : Z) : Mon unit :=
  if ebp =? 0 then ret tt
  else match fuel with
       | O => stop OutOfFuel
       | S fuel' =>
           mem <- gets m_mem ;;
           match debuginfo_eip (load mem (ebp + 4)) with
           | None => panic "Address not found in mon_backtrace"
           | Some info =>
               cprintf backtrace_fmt (frame_args mem ebp info) ;;
               backtrace_loop fuel' (load mem ebp)
           end
       end.

Definition mon_backtrace (fuel : nat) (argc : Z) (argv : list string) : Mon Z :=
  ebp <- read_ebp ;;
  cprintf "Stack backtrace:\n" [] ;;
  backtrace_loop fuel ebp ;;
  ret 0.

Definition mon_step (argc : Z) (argv : list string) : Mon Z :=
  tf <- deref_tf ;;
  if negb (tf_trapno tf =? T_DEBUG) && negb (tf_trapno tf =? T_BRKPT)
  then panic "Not already in debugging mode when calling step\n"
  else
    (* Enable single step flag and disable resume flag *)
    let eflags := tf_eflags tf in
    let eflags := wrap32 (Z.lor eflags 0x100) in
    let eflags := wrap32 (Z.land eflags (Z.lnot 0x10000)) in
    store_eflags eflags ;;
    ret (-2).

Definition mon_exitstep (argc : Z) (argv : list string) : Mon Z :=
  tf <- deref_tf ;;
  if negb (tf_trapno tf =? T_DEBUG) && (tf_trapno tf =? T_BRKPT)
  then panic "Not already in debugging mode when calling exitstep\n"
  else if Z.land (tf_eflags tf) 0x100 =? 0
  then panic "Not in single stepping mode when calling exitstep\n"
  else
    (* Enable resume flag and disable single step flag *)
    let eflags := tf_eflags tf in
    let eflags := wrap32 (Z.lor eflags 0x10000) in
    let eflags := wrap32 (Z.land eflags (Z.lnot 0x100)) in
    store_eflags eflags ;;
    ret (-2).

(** *** Kernel monitor command interpreter *)

(** [while ( *buf && strchr(WHITESPACE, *buf)) *buf++ = 0;], giving the
    text left at [buf].  The store of the terminator goes to the line
    buffer, which the machine of this model does not hold: the arguments
    are carried as values ([scan_arg]), and nothing below speaks of the
    contents of the line buffer after [runcmd]. *)
Fixpoint gobble (buf : string) : string :=
  match buf with
  | String c rest => if is_whitespace c then gobble rest else buf
  | EmptyString => EmptyString
  end.

(** [while ( *buf && !strchr(WHITESPACE, *buf)) buf++;], giving the
    characters passed over and the text left at [buf].  The characters
    passed over are the argument as a C string: the pointer saved in [argv]
    points at the first of them, and the whitespace that ends them is
    overwritten with a terminator by the next [gobble] (or is the end of the
    line). *)
Fixpoint scan_arg (buf : string) : string * string :=
  match buf with
  | String c rest =>
      if is_whitespace c then (EmptyString, buf)
      else let (arg, rest') := scan_arg rest in (String c arg, rest')
  | EmptyString => (EmptyString, EmptyString)
  end.

Inductive Parsed : Type :=
| TooManyArgs                               (* the early [return 0] *)
| Argv (argc : Z) (argv : list string).     (* the [break] *)

(** The [while (1)] of [runcmd].  Every turn that goes on takes at least one
    character off the line, so a budget above the length of the line is
    never used up ([parse_args_total]). *)
Fixpoint parse_args (fuel : nat) (buf : string) (argc : Z) (argv : list string)
  : option Parsed :=
  match fuel with
  | O => None
  | S fuel' =>
      match gobble buf with
      | EmptyString => Some (Argv argc argv)
      | String _ _ as buf' =>
          if argc =? MAXARGS - 1 then Some TooManyArgs
          else let (arg, rest) := scan_arg buf' in
               parse_args fuel' rest (argc + 1) (argv ++ [arg])%list
      end
  end.

(** [commands[i].func(argc, argv, tf)]. *)
Definition call (depth : nat) (h : Handler) (argc : Z) (argv : list string) : Mon Z :=
  match h with
  | H_mon_help => mon_help argc argv
  | H_mon_kerninfo => mon_kerninfo argc argv
  | H_mon_backtrace => mon_backtrace depth argc argv
  | H_mon_step => mon_step argc argv
  | H_mon_exitstep => mon_exitstep argc argv
  end.

(** The [for] over [commands] and what follows it. *)
Fixpoint lookup (depth : nat) (cs : list Command) (argc : Z) (argv : list string)
  : Mon Z :=
  match cs with
  | c :: cs' =>
      if String.eqb (hd EmptyString argv) (name c)
      then call depth (func c) argc argv
      else lookup depth cs' argc argv
  | [] =>
      cprintf "Unknown command '%s'\n" [AStr (hd EmptyString argv)] ;;
      ret 0
  end.

(** [depth] is the budget of [mon_backtrace]'s walk. *)
Definition runcmd (depth : nat) (buf : string) : Mon Z :=
  match parse_args (S (String.length buf)) buf 0 [] with
  | None => stop OutOfFuel
  | Some TooManyArgs =>
      cprintf "Too many arguments (max %d)\n" [AInt MAXARGS] ;;
      ret 0
  | Some (Argv argc argv) =>
      if argc =? 0 then ret 0
      else lookup depth commands argc argv
  end.

(** The [while (1)] of [monitor].  [lines] is what the coming calls of
    [readline] return ([None] for a null pointer); with none left the loop
    is blocked in [readline].  When the loop breaks, the lines not yet read
    are returned. *)
Fixpoint monitor_loop (depth : nat) (lines : list (option string))
  : Mon (list (option string)) :=
  match lines with
  | [] => stop AwaitInput
  | buf :: rest =>
      match buf with
      | Some b =>
          r <- runcmd depth b ;;
          if r <? 0 then ret rest else monitor_loop depth rest
      | None => monitor_loop depth rest
      end
  end.

Definition monitor (depth : nat) (lines : list (option string))
  : Mon (list (option string)) :=
  cprintf "Welcome to the JOS kernel monitor!\n" [] ;;
  cprintf "Type 'help' for a list of commands.\n" [] ;;
  tf <- gets m_tf ;;
  match tf with
  | Some t => print_trapframe t
  | None => ret tt
  end ;;
  monitor_loop depth lines.

End Kernel.

(** The trap numbers of the x86 (debug exception 1, breakpoint 3), for
    concrete runs. *)
Definition T_DEBUG_x86 : Z := 1.
Definition T_BRKPT_x86 : Z := 3.

End Monitor.

(** ** lib/file.c *)

Module FileClient.

(** Modelled from the spec: the request codes (inc/fs.h) are not among the
    sources.  The specification has them as distinct tags OPEN, READ,
    WRITE, STAT, SET_SIZE, FLUSH and SYNC; the names are the source's. *)
Inductive Fsreq : Type :=
| FSREQ_OPEN | FSREQ_SET_SIZE | FSREQ_READ | FSREQ_WRITE
| FSREQ_STAT | FSREQ_FLUSH | FSREQ_SYNC.

Inductive EnvType : Type := ENV_TYPE_FS.

Inductive Pte : Type := PTE_P | PTE_W | PTE_U.

(** Modelled from the spec: [union Fsipc] (inc/fs.h) is not among the
    sources.  The specification lists its members (open, read, write,
    stat, set_size, flush; replies readRet and statRet over the same
    storage) and the source names their fields.  The model keeps the member
    the page was last written through; the stores that fill a request
    member by member are one store of the whole member. *)
Inductive Fsipc : Type :=
| Fsipc_open (req_path : string) (req_omode : Z)
| Fsipc_set_size (req_fileid : Z) (req_size : Z)
| Fsipc_read (req_fileid : Z) (req_n : Z)
| Fsipc_readRet (ret_buf : list Byte.byte)
| Fsipc_write (req_fileid : Z) (req_n : Z) (req_buf : list Byte.byte)
| Fsipc_stat (req_fileid : Z)
| Fsipc_statRet (ret_name : string) (ret_size : Z) (ret_isdir : Z)
| Fsipc_flush (req_fileid : Z).

(** [fsipcbuf.readRet.ret_buf] and the fields of [fsipcbuf.statRet].  A
    page last written through another member has no reading in this model;
    the accessors then give an empty reply. *)
Definition readRet_ret_buf (page : Fsipc) : list Byte.byte :=
  match page with
  | Fsipc_readRet b => b
  | _ => []
  end.

Definition statRet_ret_name (page : Fsipc) : string :=
  match page with
  | Fsipc_statRet nm _ _ => nm
  | _ => EmptyString
  end.

Definition statRet_ret_size (page : Fsipc) : Z :=
  match page with
  | Fsipc_statRet _ sz _ => sz
  | _ => 0
  end.

Definition statRet_ret_isdir (page : Fsipc) : Z :=
  match page with
  | Fsipc_statRet _ _ d => d
  | _ => 0
  end.

(** Modelled from the spec: [struct Fd] (inc/fd.h) is not among the
    sources.  The specification's descriptor holds a server-assigned file
    identifier, which the source reads as [fd->fd_file.id]. *)
Record FdFile : Type := mkFdFile { id : Z }.
Record Fd : Type := mkFd { fd_file : FdFile }.

(** Modelled from the spec: [struct Stat] (inc/fd.h) is not among the
    sources.  The specification's result record takes a name, a size and a
    directory flag; the field names are those [devfile_stat] stores. *)
Record Stat : Type := mkStat {
  st_name : string;
  st_size : Z;
  st_isdir : Z
}.

(** Calls that leave the translation unit. *)
Inductive Call : Type :=
| C_cprintf (fmt : string) (args : list Arg)
| C_fd_alloc
| C_fd_close (fd : Z) (flag : Z)
| C_ipc_find_env (type : EnvType)
| C_ipc_send (to_env : Z) (val : Fsreq) (page : Fsipc) (perm : list Pte)
| C_ipc_recv (dstva : Z).

(** The state of the client: the shared request page, the cached server
    identifier ([static envid_t fsenv] of [fsipc]) and the calls made so
    far, oldest first.  What the rest of the system answers to a call is a
    function of that history. *)
Record Client : Type := mkClient {
  fsipcbuf : Fsipc;
  fsenv : Z;
  calls : list Call
}.

Definition Cl : Type -> Type := M Client.

Definition set_fsipcbuf (page : Fsipc) : Cl unit :=
  modify (fun c => mkClient page (fsenv c) (calls c)).

Definition set_fsenv (e : Z) : Cl unit :=
  modify (fun c => mkClient (fsipcbuf c) e (calls c)).

(** Record a call and hand the history, the call included, to [answer]. *)
Definition extcall {A} (c : Call) (answer : list Call -> A) : Cl A :=
  fun st => let h := (calls st ++ [c])%list in
            Done (answer h) (mkClient (fsipcbuf st) (fsenv st) h).

(** JOS is built for the 32-bit x86. *)
Definition sizeof_int : Z := 4.
Definition sizeof_size_t : Z := 4.

(** [memmove(dst, src, n)] and [memcpy(dst, src, n)] on the bytes that start
    at [dst], for a [src] and a [dst] of at least [n] bytes. *)
Definition memmove (dst src : list Byte.byte) (n : Z) : list Byte.byte :=
  (firstn (Z.to_nat n) src ++ skipn (Z.to_nat n) dst)%list.

Definition strlen (s : string) : Z := Z.of_nat (String.length s).

Section Client.

(** Constants of inc/mmu.h, inc/fs.h and inc/error.h. *)
Variables PGSIZE MAXPATHLEN E_BAD_PATH : Z.

(** [thisenv->env_id]. *)
Variable thisenv_env_id : Z.

(** What the other translation units answer, given the calls so far (the
    last of them is the call being answered).  [fd_alloc] answers its
    return value and the pointer it stores through its argument;
    [ipc_recv] answers the value received and the contents the server left
    in the shared page. *)
Variable fd_alloc_ans : list Call -> Z * Z.
Variable fd_close_ans : list Call -> Z.
Variable ipc_find_env_ans : list Call -> Z.
Variable ipc_recv_ans : list Call -> Z * Fsipc.

(** [fd2num] of lib/fd.c. *)
Variable fd2num : Z -> Z.

Definition cprintf (fmt : string) (args : list Arg) : Cl unit :=
  extcall (C_cprintf fmt args) (fun _ => tt).

Definition fd_alloc : Cl (Z * Z) := extcall C_fd_alloc fd_alloc_ans.

Definition fd_close (fd : Z) (flag : Z) : Cl Z :=
  extcall (C_fd_close fd flag) fd_close_ans.

Definition ipc_find_env (type : EnvType) : Cl Z :=
  extcall (C_ipc_find_env type) ipc_find_env_ans.

Definition ipc_send (to_env : Z) (val : Fsreq) (perm : list Pte) : Cl unit :=
  page <- gets fsipcbuf ;;
  extcall (C_ipc_send to_env val page perm) (fun _ => tt).

(** [ipc_recv(NULL, dstva, NULL)]: the page is shared with the server, so
    on return it holds what the server left there.  The value is an
    [int32_t]. *)
Definition ipc_recv (dstva : Z) : Cl Z :=
  ans <- extcall (C_ipc_recv dstva) ipc_recv_ans ;;
  set_fsipcbuf (snd ans) ;;
  ret (sint32 (fst ans)).

(** [assert(x)] of inc/assert.h, which is not among the sources: a panic
    when [x] is false (JOS compiles its assertions in). *)
Definition assert (x : bool) (text : string) : Cl unit :=
  if x then ret tt else panic ("assertion failed: " ++ text).

(** [debug] is 0: the tracing branch of [fsipc] is dead and left out. *)
Definition fsipc (type : Fsreq) (dstva : Z) : Cl Z :=
  e <- gets fsenv ;;
  (if e =? 0
   then e' <- ipc_find_env ENV_TYPE_FS ;; set_fsenv e'
   else ret tt) ;;
  e <- gets fsenv ;;
  ipc_send e type [PTE_P; PTE_W; PTE_U] ;;
  r <- ipc_recv dstva ;;
  ret r.

Definition open (path : string) (mode : Z) : Cl Z :=
  cprintf "[open] path: %s\n" [AStr path] ;;
  if wrap32 MAXPATHLEN <=? strlen path
  then ret (- E_BAD_PATH)
  else
    a <- fd_alloc ;;
    let (r, fd) := a in
    if r <? 0 then ret r
    else
      set_fsipcbuf (Fsipc_open path mode) ;;
      cprintf "[%08x][open] new path in fsipcbuf: %s\n"
              [AInt thisenv_env_id; AStr path] ;;
      r <- fsipc FSREQ_OPEN fd ;;
      if r <? 0
      then fd_close fd 0 ;; ret r
      else ret (fd2num fd).

Definition devfile_flush (fd : Fd) : Cl Z :=
  set_fsipcbuf (Fsipc_flush (id (fd_file fd))) ;;
  fsipc FSREQ_FLUSH 0.

(** [buf] is the contents of the caller's buffer; the function gives its
    return value and what the buffer holds afterwards. *)
Definition devfile_read (fd : Fd) (buf : list Byte.byte) (n : Z) : Cl (Z * list Byte.byte) :=
  set_fsipcbuf (Fsipc_read (id (fd_file fd)) n) ;;
  r <- fsipc FSREQ_READ 0 ;;
  if r <? 0 then ret (r, buf)
  else
    assert (wrap32 r <=? n) "r <= n" ;;
    assert (r <=? PGSIZE) "r <= PGSIZE" ;;
    page <- gets fsipcbuf ;;
    ret (r, memmove buf (readRet_ret_buf page) r).

(** [int max_buf_size = PGSIZE - (sizeof(int) + sizeof(size_t))]: the
    subtraction is done in [size_t] and the result converted to [int]. *)
Definition max_buf_size : Z :=
  sint32 (wrap32 (PGSIZE - (sizeof_int + sizeof_size_t))).

(** [buf] is the bytes at the caller's pointer.  Against the [size_t] [n]
    the [int]s [max_buf_size] and [r] are converted to [size_t]. *)
Definition devfile_write (fd : Fd) (buf : list Byte.byte) (n : Z) : Cl Z :=
  let req_n := if wrap32 max_buf_size <? n then wrap32 max_buf_size else n in
  set_fsipcbuf (Fsipc_write (id (fd_file fd)) req_n (firstn (Z.to_nat req_n) buf)) ;;
  r <- fsipc FSREQ_WRITE 0 ;;
  if r <? 0 then ret r
  else
    assert (wrap32 r <=? n) "r <= n" ;;
    assert (r <=? PGSIZE) "r <= PGSIZE" ;;
    ret r.

(** [st] is the caller's record; the function gives its return value and
    what the record holds afterwards. *)
Definition devfile_stat (fd : Fd) (st : Stat) : Cl (Z * Stat) :=
  set_fsipcbuf (Fsipc_stat (id (fd_file fd))) ;;
  r <- fsipc FSREQ_STAT 0 ;;
  if r <? 0 then ret (r, st)
  else
    page <- gets fsipcbuf ;;
    let st := mkStat (statRet_ret_name page) (st_size st) (st_isdir st) in
    let st := mkStat (st_name st) (statRet_ret_size page) (st_isdir st) in
    let st := mkStat (st_name st) (st_size st) (statRet_ret_isdir page) in
    ret (0, st).

Definition devfile_trunc (fd : Fd) (newsize : Z) : Cl Z :=
  set_fsipcbuf (Fsipc_set_size (id (fd_file fd)) newsize) ;;
  fsipc FSREQ_SET_SIZE 0.

Definition sync : Cl Z := fsipc FSREQ_SYNC 0.

End Client.

End FileClient.

(** * Specification-side definitions *)

(** ** Flags *)

(** Setting bit [s] and then clearing bit [c] of a 32-bit value, the way the
    step commands do it. *)
Definition set_then_clear (e s c : Z) : Z :=
  wrap32 (Z.land (wrap32 (Z.lor e (2 ^ s))) (Z.lnot (2 ^ c))).

(** The machine with the flags register of its trap frame replaced: every
    other field of the trap frame, the console, the memory and the
    frame-pointer register are those of [m] and [tf]. *)
Definition with_eflags (m : Monitor.Machine) (tf : Monitor.Trapframe) (e : Z)
  : Monitor.Machine :=
  Monitor.mkMachine
    (Some (Monitor.mkTrapframe (Monitor.tf_ebp tf) (Monitor.tf_trapno tf)
                               (Monitor.tf_eip tf) e))
    (Monitor.m_console m) (Monitor.m_mem m) (Monitor.m_ebp m).

(** The machine with [outs] added to its console. *)
Definition add_console (m : Monitor.Machine) (outs : list Monitor.Out)
  : Monitor.Machine :=
  Monitor.mkMachine (Monitor.m_tf m) (Monitor.m_console m ++ outs)%list
                    (Monitor.m_mem m) (Monitor.m_ebp m).

(** ** Arguments of a line *)

(** The arguments of a line as the specification has them: the line split
    at whitespace.  [cur] is the argument being collected. *)
Definition flush (cur : string) : list string :=
  match cur with
  | EmptyString => []
  | String _ _ => [cur]
  end.

Fixpoint split_ws (cur : string) (s : string) : list string :=
  match s with
  | EmptyString => flush cur
  | String c r =>
      if Monitor.is_whitespace c
      then (flush cur ++ split_ws EmptyString r)%list
      else split_ws (cur ++ String c EmptyString) r
  end.

Definition tokens (s : string) : list string := split_ws EmptyString s.

(** ** Stack frames *)

(** A stack frame as the specification has it: the frame pointer, the
    return address at offset +4 and the five argument words at offsets +8
    to +24. *)
Record Frame : Type := mkFrame {
  frame_pointer : Z;
  return_address : Z;
  arguments : list Z
}.

Definition frame_at (mem : Z -> Z) (fp : Z) : Frame :=
  mkFrame fp
          (Monitor.load mem (fp + 4))
          [ Monitor.load mem (fp + 8); Monitor.load mem (fp + 12);
            Monitor.load mem (fp + 16); Monitor.load mem (fp + 20);
            Monitor.load mem (fp + 24) ].

(** The output line of a frame: frame pointer, return address, arguments,
    file, line, function name with its length, and the offset of the return
    address in the function. *)
Definition frame_line (f : Frame) (info : Monitor.Eipdebuginfo) : Monitor.Out :=
  Monitor.Cprintf Monitor.backtrace_fmt
    ([AInt (frame_pointer f); AInt (return_address f)]
       ++ map AInt (arguments f)
       ++ [ AStr (Monitor.eip_file info); AInt (Monitor.eip_line info);
            AInt (Monitor.eip_fn_namelen info); AStr (Monitor.eip_fn_name info);
            AInt (wrap32 (return_address f - Monitor.eip_fn_addr info)) ])%list.

(** Following the links of the frame pointers [fps] from [ebp]: each of
    them is not null and is where the link before it (or [ebp]) points;
    the result is the link stored at the last. *)
Fixpoint follow (mem : Z -> Z) (ebp : Z) (fps : list Z) : option Z :=
  match fps with
  | [] => Some ebp
  | fp :: rest =>
      if (ebp =? fp) && negb (fp =? 0)
      then follow mem (Monitor.load mem fp) rest
      else None
  end.

(** [fps] is the chain of frames that starts at [ebp] and ends in a null
    link. *)
Definition is_chain (mem : Z -> Z) (ebp : Z) (fps : list Z) : bool :=
  match follow mem ebp fps with
  | Some last => last =? 0
  | None => false
  end.

(** The line printed for the frame at [fp], when its return address
    resolves. *)
Definition resolved (debuginfo_eip : Z -> option Monitor.Eipdebuginfo)
                    (mem : Z -> Z) (fp : Z) : option Monitor.Out :=
  option_map (frame_line (frame_at mem fp))
             (debuginfo_eip (return_address (frame_at mem fp))).

(** ** Requests of the file client *)

(** The requests sent to the file server in a history of calls, oldest
    first. *)
Fixpoint requests (h : list FileClient.Call)
  : list (FileClient.Fsreq * FileClient.Fsipc) :=
  match h with
  | [] => []
  | FileClient.C_ipc_send _ val page _ :: h' => (val, page) :: requests h'
  | _ :: h' => requests h'
  end.

(** The server [fsipc] talks to from state [st]: looked up if it is not
    cached. *)
Definition fsipc_env (ipc_find_env_ans : list FileClient.Call -> Z)
                     (st : FileClient.Client) : Z :=
  if FileClient.fsenv st =? 0
  then ipc_find_env_ans
         (FileClient.calls st
            ++ [FileClient.C_ipc_find_env FileClient.ENV_TYPE_FS])%list
  else FileClient.fsenv st.

(** The history after [fsipc type dstva] from state [st]: the lookup if
    there is one, then the page sent and the reply awaited. *)
Definition fsipc_calls (ipc_find_env_ans : list FileClient.Call -> Z)
                       (type : FileClient.Fsreq) (dstva : Z)
                       (st : FileClient.Client) : list FileClient.Call :=
  ((FileClient.calls st
      ++ (if FileClient.fsenv st =? 0
          then [FileClient.C_ipc_find_env FileClient.ENV_TYPE_FS] else []))
     ++ [ FileClient.C_ipc_send (fsipc_env ipc_find_env_ans st) type
            (FileClient.fsipcbuf st)
            [FileClient.PTE_P; FileClient.PTE_W; FileClient.PTE_U];
          FileClient.C_ipc_recv dstva ])%list.

(** The state a computation ends in. *)
Definition final_state {A} (o : Outcome FileClient.Client A) : FileClient.Client :=
  match o with
  | Done _ s => s
  | Stopped _ s => s
  end.

(** Unfolding the client functions down to the calls of [fsipc]. *)
Ltac run_client :=
  cbv beta iota delta
    [FileClient.open FileClient.devfile_read FileClient.devfile_write
     FileClient.devfile_stat FileClient.cprintf FileClient.fd_alloc
     FileClient.fd_close FileClient.assert
     bind ret gets modify FileClient.set_fsipcbuf FileClient.extcall];
  cbn [FileClient.fsipcbuf FileClient.fsenv FileClient.calls].

(** ** Lines, arguments and outcomes of the monitor *)

(** A line of whitespace only. *)
Fixpoint all_whitespace (s : string) : bool :=
  match s with
  | EmptyString => true
  | String c r => Monitor.is_whitespace c && all_whitespace r
  end.

Fixpoint has_whitespace (s : string) : bool :=
  match s with
  | EmptyString => false
  | String c r => Monitor.is_whitespace c || has_whitespace r
  end.

(** What can stand as one argument: at least one character, none of them
    whitespace. *)
Definition is_arg (a : string) : bool :=
  match a with
  | EmptyString => false
  | String _ _ => negb (has_whitespace a)
  end.

(** The arguments written out on one line, a single space between them. *)
Fixpoint join (args : list string) : string :=
  match args with
  | [] => EmptyString
  | a :: rest =>
      match rest with
      | [] => a
      | _ :: _ => (a ++ String " " (join rest))%string
      end
  end.

(** The first argument of the line is [step] or [exitstep]. *)
Definition is_step_command (buf : string) : bool :=
  match tokens buf with
  | [] => false
  | t :: _ => String.eqb t "step" || String.eqb t "exitstep"
  end.

(** The first argument of the line, if there is one, is none of
    [backtrace], [step] and [exitstep]. *)
Definition is_quiet_line (buf : string) : bool :=
  match tokens buf with
  | [] => true
  | t :: _ => negb (String.eqb t "backtrace" || String.eqb t "step"
                    || String.eqb t "exitstep")
  end.

Definition is_quiet_input (line : option string) : bool :=
  match line with
  | Some buf => is_quiet_line buf
  | None => true
  end.

(** The state a computation ends in, whether it returns or stops. *)
Definition end_state {S A} (o : Outcome S A) : S :=
  match o with
  | Done _ s => s
  | Stopped _ s => s
  end.

(** From [m] to [m'] the memory and the frame-pointer register are kept and
    the console has only been added to. *)
Definition same_memory (m m' : Monitor.Machine) : Prop :=
  Monitor.m_mem m' = Monitor.m_mem m /\
  Monitor.m_ebp m' = Monitor.m_ebp m /\
  exists outs, Monitor.m_console m' = (Monitor.m_console m ++ outs)%list.

(** [same_memory], and the trap frame is kept as well. *)
Definition grows (m m' : Monitor.Machine) : Prop :=
  Monitor.m_tf m' = Monitor.m_tf m /\ same_memory m m'.

(** The machine after the lines read have been run one after the other,
    each from the state the one before left; [run] is what one line does,
    and a null result of [readline] does nothing. *)
Fixpoint after_lines (run : string -> Monitor.Machine -> Monitor.Machine)
                     (lines : list (option string)) (m : Monitor.Machine)
  : Monitor.Machine :=
  match lines with
  | [] => m
  | Some b :: rest => after_lines run rest (run b m)
  | None :: rest => after_lines run rest m
  end.

(** ** Histories of the file client *)

(** The number of server lookups in a history. *)
Fixpoint lookups (h : list FileClient.Call) : nat :=
  match h with
  | [] => O
  | FileClient.C_ipc_find_env _ :: h' => S (lookups h')
  | _ :: h' => lookups h'
  end.

(** The servers the requests of a history were sent to, oldest first. *)
Fixpoint targets (h : list FileClient.Call) : list Z :=
  match h with
  | [] => []
  | FileClient.C_ipc_send to_env _ _ _ :: h' => to_env :: targets h'
  | _ :: h' => targets h'
  end.

(** * Sample inputs *)

(** A trap frame of a debug trap with only the interrupt flag (and the
    always-set bit 1) in its flags, on a machine with empty memory. *)
Definition debug_frame (eflags : Z) : Monitor.Trapframe :=
  Monitor.mkTrapframe 0xeebfdfd0 Monitor.T_DEBUG_x86 0x800020 eflags.

Definition brkpt_frame (eflags : Z) : Monitor.Trapframe :=
  Monitor.mkTrapframe 0xeebfdfd0 Monitor.T_BRKPT_x86 0x800020 eflags.

(** A trap frame of a page fault (trap 14). *)
Definition pgflt_frame (eflags : Z) : Monitor.Trapframe :=
  Monitor.mkTrapframe 0xeebfdfd0 14 0x800020 eflags.

Definition machine_of (tf : Monitor.Trapframe) : Monitor.Machine :=
  Monitor.mkMachine (Some tf) [] (fun _ => 0) 0.

(** Two frames on a kernel stack: the frame at 0xf010ffb8 links to the
    frame at 0xf010ffd8, which ends the chain. *)
Definition sample_mem (a : Z) : Z :=
  if a =? 0xf010ffb8 then 0xf010ffd8          (* saved ebp *)
  else if a =? 0xf010ffbc then 0xf0100068     (* return address *)
  else if a =? 0xf010ffc0 then 5              (* first argument *)
  else if a =? 0xf010ffd8 then 0
  else if a =? 0xf010ffdc then 0xf01000d4
  else if a =? 0xf010ffe0 then 7
  else 0.

Definition sample_debuginfo (eip : Z) : option Monitor.Eipdebuginfo :=
  if eip =? 0xf0100068
  then Some (Monitor.mkEipdebuginfo "kern/init.c" 24 "test_backtrace" 14 0xf0100040)
  else if eip =? 0xf01000d4
  then Some (Monitor.mkEipdebuginfo "kern/init.c" 44 "i386_init" 9 0xf010009d)
  else None.

(** The same table without the entry for the outer frame. *)
Definition partial_debuginfo (eip : Z) : option Monitor.Eipdebuginfo :=
  if eip =? 0xf0100068
  then Some (Monitor.mkEipdebuginfo "kern/init.c" 24 "test_backtrace" 14 0xf0100040)
  else None.

Definition sample_machine : Monitor.Machine :=
  Monitor.mkMachine None [] sample_mem 0xf010ffb8.

Definition x86_runcmd : nat -> string -> Monitor.Mon Z :=
  Monitor.runcmd Monitor.T_DEBUG_x86 Monitor.T_BRKPT_x86 sample_debuginfo
                 0x10000c 0xf010000c 0xf0101a75 0xf0112300 0xf0112960 0xf0000000.

Definition x86_lookup :=
  Monitor.lookup Monitor.T_DEBUG_x86 Monitor.T_BRKPT_x86 sample_debuginfo
                 0x10000c 0xf010000c 0xf0101a75 0xf0112300 0xf0112960 0xf0000000.

Definition x86_monitor_loop :=
  Monitor.monitor_loop Monitor.T_DEBUG_x86 Monitor.T_BRKPT_x86 sample_debuginfo
                       0x10000c 0xf010000c 0xf0101a75 0xf0112300 0xf0112960 0xf0000000.

(** A file server for the runs: it accepts a write in full, knows the file
    /motd only, and refuses to read or stat. *)
Definition sample_server (h : list FileClient.Call) : Z * FileClient.Fsipc :=
  match last (map Some (requests h)) None with
  | Some (FileClient.FSREQ_WRITE, FileClient.Fsipc_write _ n _ as page) => (n, page)
  | Some (FileClient.FSREQ_OPEN, FileClient.Fsipc_open path _ as page) =>
      if String.eqb path "/motd" then (0, page) else (-11, page)
  | Some (FileClient.FSREQ_READ, page) => (-3, page)
  | Some (FileClient.FSREQ_STAT, page) => (-3, page)
  | Some (_, page) => (0, page)
  | None => (0, FileClient.Fsipc_flush 0)
  end.

Definition sample_fd_alloc (h : list FileClient.Call) : Z * Z := (0, 0xd0000000).
Definition sample_fd_close (h : list FileClient.Call) : Z := 0.
Definition sample_find_env (h : list FileClient.Call) : Z := 0x1001.
Definition sample_fd2num (fd : Z) : Z := (fd - 0xd0000000) / 4096.

Definition fresh_client : FileClient.Client :=
  FileClient.mkClient (FileClient.Fsipc_flush 0) 0 [].

Definition sample_fd : FileClient.Fd := FileClient.mkFd (FileClient.mkFdFile 7).

Definition sample_open : string -> Z -> FileClient.Cl Z :=
  FileClient.open 1024 12 0x1002 sample_fd_alloc sample_fd_close sample_find_env
                  sample_server sample_fd2num.

Definition sample_write : FileClient.Fd -> list Byte.byte -> Z -> FileClient.Cl Z :=
  FileClient.devfile_write 4096 sample_find_env sample_server.

Definition long_path : string :=
  Eval cbv in
    (fix rep (n : nat) : string :=
       match n with O => EmptyString | S n' => String "a" (rep n') end) 1024%nat.

(** The client just before [open] calls the Gateway for [path]. *)
Definition before_open_request (path : string) (mode : Z) : FileClient.Client :=
  FileClient.mkClient (FileClient.Fsipc_open path mode) 0
    [ FileClient.C_cprintf "[open] path: %s\n" [AStr path];
      FileClient.C_fd_alloc;
      FileClient.C_cprintf "[%08x][open] new path in fsipcbuf: %s\n"
                           [AInt 0x1002; AStr path] ].

Definition after_open_request (path : string) (mode : Z) : FileClient.Client :=
  final_state (FileClient.fsipc sample_find_env sample_server FileClient.FSREQ_OPEN
                                0xd0000000 (before_open_request path mode)).

Definition sample_stat : FileClient.Stat := FileClient.mkStat "old" 3 0.

(** A frame that links to itself. *)
Definition cyclic_mem (a : Z) : Z :=
  if a =? 0xf010ffb8 then 0xf010ffb8
  else if a =? 0xf010ffbc then 0xf0100068
  else 0.

Definition cyclic_machine : Monitor.Machine :=
  Monitor.mkMachine None [] cyclic_mem 0xf010ffb8.

Definition x86_monitor :=
  Monitor.monitor Monitor.T_DEBUG_x86 Monitor.T_BRKPT_x86 sample_debuginfo
                  0x10000c 0xf010000c 0xf0101a75 0xf0112300 0xf0112960 0xf0000000.

Definition x86_call :=
  Monitor.call Monitor.T_DEBUG_x86 Monitor.T_BRKPT_x86 sample_debuginfo
               0x10000c 0xf010000c 0xf0101a75 0xf0112300 0xf0112960 0xf0000000.

(** A descriptor table with no slot left. *)
Definition failing_fd_alloc (h : list FileClient.Call) : Z * Z := (-10, 0).

(** A file server that answers a read with the two bytes "hi" and a stat
    with the record of /motd. *)
Definition serving_server (h : list FileClient.Call) : Z * FileClient.Fsipc :=
  match last (map Some (requests h)) None with
  | Some (FileClient.FSREQ_READ, _) =>
      (2, FileClient.Fsipc_readRet [Byte.x68; Byte.x69])
  | Some (FileClient.FSREQ_STAT, _) => (0, FileClient.Fsipc_statRet "motd" 12 0)
  | Some (_, page) => (0, page)
  | None => (0, FileClient.Fsipc_flush 0)
  end.

(** * Properties *)

(** ** Monad and integer facts *)

Lemma wrap32_range z : is_uint32 (wrap32 z).
Proof. unfold is_uint32, wrap32. apply Z.mod_pos_bound. lia. Qed.

Lemma wrap32_small z : is_uint32 z -> wrap32 z = z.
Proof. unfold is_uint32, wrap32. intros H. apply Z.mod_small. exact H. Qed.

Lemma wrap32_testbit z i : Z.testbit (wrap32 z) i = (i <? 32) && Z.testbit z i.
Proof. unfold wrap32. apply Z.testbit_mod_pow2. lia. Qed.

Lemma uint32_testbit_high z i : is_uint32 z -> 32 <= i -> Z.testbit z i = false.
Proof.
  intros Hz Hi. rewrite <- (wrap32_small z Hz), wrap32_testbit.
  replace (i <? 32) with false by (symmetry; apply Z.ltb_ge; exact Hi).
  reflexivity.
Qed.

Lemma sint32_small z : - 2 ^ 31 <= z < 2 ^ 31 -> sint32 z = z.
Proof. unfold sint32. intros H. rewrite Z.mod_small; lia. Qed.

Lemma set_then_clear_bits e s c :
  is_uint32 e -> 0 <= s < 32 -> 0 <= c < 32 -> s <> c ->
  Z.testbit (set_then_clear e s c) s = true /\
  Z.testbit (set_then_clear e s c) c = false /\
  forall i, i <> s -> i <> c ->
            Z.testbit (set_then_clear e s c) i = Z.testbit e i.
Proof.
  intros He Hs Hc Hsc.
  assert (bit : forall i, 0 <= i ->
            Z.testbit (set_then_clear e s c) i
            = (i <? 32) && (((i <? 32) && (Z.testbit e i || (s =? i)))
                            && negb (c =? i))).
  { intros i Hi. unfold set_then_clear.
    rewrite wrap32_testbit, Z.land_spec, wrap32_testbit, Z.lor_spec.
    rewrite Z.lnot_spec by exact Hi.
    rewrite !Z.pow2_bits_eqb by lia. reflexivity. }
  repeat split.
  - rewrite bit by lia.
    replace (s <? 32) with true by (symmetry; apply Z.ltb_lt; lia).
    rewrite Z.eqb_refl, orb_true_r.
    replace (c =? s) with false by (symmetry; apply Z.eqb_neq; lia).
    reflexivity.
  - rewrite bit by lia. rewrite Z.eqb_refl.
    rewrite andb_false_r, andb_false_r. reflexivity.
  - intros i His Hic.
    destruct (Z.lt_ge_cases i 0) as [Hneg | Hpos].
    + rewrite !Z.testbit_neg_r by exact Hneg. reflexivity.
    + rewrite bit by exact Hpos.
      replace (s =? i) with false by (symmetry; apply Z.eqb_neq; lia).
      replace (c =? i) with false by (symmetry; apply Z.eqb_neq; lia).
      rewrite orb_false_r. cbn [negb]. rewrite andb_true_r.
      destruct (Z.ltb_spec i 32) as [Hlow | Hhigh].
      * reflexivity.
      * cbn [andb]. symmetry. apply uint32_testbit_high; assumption.
Qed.

Lemma testbit_land_pow2 e k :
  0 <= k -> (Z.land e (2 ^ k) =? 0) = negb (Z.testbit e k).
Proof.
  intros Hk. destruct (Z.testbit e k) eqn:Hb; cbn [negb].
  - apply Z.eqb_neq. intros H0.
    assert (Hbit : Z.testbit (Z.land e (2 ^ k)) k = true).
    { rewrite Z.land_spec, Hb, Z.pow2_bits_eqb, Z.eqb_refl by exact Hk.
      reflexivity. }
    rewrite H0, Z.bits_0 in Hbit. discriminate.
  - apply Z.eqb_eq. apply Z.bits_inj'. intros i Hi.
    rewrite Z.land_spec, Z.bits_0, Z.pow2_bits_eqb by exact Hk.
    destruct (Z.eqb_spec k i) as [-> | _].
    + rewrite Hb. reflexivity.
    + apply andb_false_r.
Qed.

(** ** The step controller *)

Section StepController.

Import Monitor.

Variables T_DEBUG T_BRKPT : Z.

Let mon_step := Monitor.mon_step T_DEBUG T_BRKPT.
Let mon_exitstep := Monitor.mon_exitstep T_DEBUG T_BRKPT.

Lemma mon_step_run m tf argc argv :
  m_tf m = Some tf ->
  tf_trapno tf = T_DEBUG \/ tf_trapno tf = T_BRKPT ->
  mon_step argc argv m
  = Done (-2) (with_eflags m tf (set_then_clear (tf_eflags tf) 8 16)).
Proof.
  intros Htf Hcause.
  unfold mon_step, Monitor.mon_step, bind, deref_tf. rewrite Htf.
  assert (Hguard : negb (tf_trapno tf =? T_DEBUG) && negb (tf_trapno tf =? T_BRKPT)
                   = false).
  { destruct Hcause as [-> | ->]; rewrite Z.eqb_refl.
    - reflexivity.
    - apply andb_false_r. }
  rewrite Hguard. unfold store_eflags, ret. rewrite Htf. reflexivity.
Qed.

Lemma mon_step_panics m tf argc argv :
  m_tf m = Some tf ->
  tf_trapno tf <> T_DEBUG -> tf_trapno tf <> T_BRKPT ->
  mon_step argc argv m
  = Stopped (Panic "Not already in debugging mode when calling step\n") m.
Proof.
  intros Htf Hd Hb.
  unfold mon_step, Monitor.mon_step, bind, deref_tf. rewrite Htf.
  apply Z.eqb_neq in Hd, Hb. rewrite Hd, Hb. reflexivity.
Qed.

Lemma mon_exitstep_run m tf argc argv :
  m_tf m = Some tf ->
  tf_trapno tf = T_DEBUG \/ tf_trapno tf <> T_BRKPT ->
  Z.testbit (tf_eflags tf) 8 = true ->
  mon_exitstep argc argv m
  = Done (-2) (with_eflags m tf (set_then_clear (tf_eflags tf) 16 8)).
Proof.
  intros Htf Hcause Hbit.
  unfold mon_exitstep, Monitor.mon_exitstep, bind, deref_tf. rewrite Htf.
  assert (Hguard : negb (tf_trapno tf =? T_DEBUG) && (tf_trapno tf =? T_BRKPT)
                   = false).
  { destruct Hcause as [-> | Hb].
    - rewrite Z.eqb_refl. reflexivity.
    - apply Z.eqb_neq in Hb. rewrite Hb. apply andb_false_r. }
  rewrite Hguard.
  change 256 with (2 ^ 8). rewrite testbit_land_pow2 by lia. rewrite Hbit.
  cbn [negb]. unfold store_eflags, ret. rewrite Htf. reflexivity.
Qed.

Lemma mon_exitstep_panics_brkpt m tf argc argv :
  m_tf m = Some tf ->
  tf_trapno tf <> T_DEBUG -> tf_trapno tf = T_BRKPT ->
  mon_exitstep argc argv m
  = Stopped (Panic "Not already in debugging mode when calling exitstep\n") m.
Proof.
  intros Htf Hd Hb.
  unfold mon_exitstep, Monitor.mon_exitstep, bind, deref_tf. rewrite Htf.
  apply Z.eqb_neq in Hd. rewrite Hd, Hb, Z.eqb_refl. reflexivity.
Qed.

Lemma mon_exitstep_panics_not_stepping m tf argc argv :
  m_tf m = Some tf ->
  Z.testbit (tf_eflags tf) 8 = false ->
  exists msg, mon_exitstep argc argv m = Stopped (Panic msg) m.
Proof.
  intros Htf Hbit.
  unfold mon_exitstep, Monitor.mon_exitstep, bind, deref_tf. rewrite Htf.
  destruct (negb (tf_trapno tf =? T_DEBUG) && (tf_trapno tf =? T_BRKPT)).
  - eexists. reflexivity.
  - change 256 with (2 ^ 8). rewrite testbit_land_pow2 by lia. rewrite Hbit.
    eexists. reflexivity.
Qed.

(** C7.  The two flag bits under the precondition of the step
    commands, a debug or breakpoint trap.  [mon_step] sets the trap flag
    0x100 (bit 8), clears the resume flag 0x10000 (bit 16) and returns -2;
    on a debug trap with the trap flag set [mon_exitstep] clears the trap
    flag, sets the resume flag and returns -2; in both every other bit of
    the flags register keeps its value and the rest of the trap frame and
    of the machine is as before ([with_eflags]).  On a breakpoint trap with
    the trap flag set, however, [mon_exitstep] panics on its trap-cause
    check and touches no bit: the machine, flags included, is as it was. *)
Theorem exitstep_on_breakpoint_touches_no_bit :
  forall m tf argc argv argc' argv',
    T_DEBUG <> T_BRKPT ->
    m_tf m = Some tf -> is_uint32 (tf_eflags tf) ->
    tf_trapno tf = T_DEBUG \/ tf_trapno tf = T_BRKPT ->
    (exists e,
        mon_step argc argv m = Done (-2) (with_eflags m tf e) /\
        Z.testbit e 8 = true /\ Z.testbit e 16 = false /\
        forall i, i <> 8 -> i <> 16 -> Z.testbit e i = Z.testbit (tf_eflags tf) i)
    /\
    (Z.testbit (tf_eflags tf) 8 = true ->
     (tf_trapno tf = T_DEBUG ->
      exists e,
        mon_exitstep argc' argv' m = Done (-2) (with_eflags m tf e) /\
        Z.testbit e 8 = false /\ Z.testbit e 16 = true /\
        forall i, i <> 8 -> i <> 16 -> Z.testbit e i = Z.testbit (tf_eflags tf) i)
     /\
     (tf_trapno tf = T_BRKPT ->
      mon_exitstep argc' argv' m
      = Stopped (Panic "Not already in debugging mode when calling exitstep\n") m)).
Proof.
  intros m tf argc argv argc' argv' Hdistinct Htf He Hcause.
  split.
  - exists (set_then_clear (tf_eflags tf) 8 16).
    split; [apply mon_step_run; assumption |].
    apply set_then_clear_bits; [assumption | lia | lia | lia].
  - intros Hbit. split.
    + intros Hdebug.
      exists (set_then_clear (tf_eflags tf) 16 8).
      split; [apply mon_exitstep_run; [exact Htf | left; exact Hdebug | exact Hbit] |].
      destruct (set_then_clear_bits (tf_eflags tf) 16 8) as (Hs & Hc & Ho);
        [assumption | lia | lia | lia |].
      repeat split; [exact Hc | exact Hs |].
      intros i Hi8 Hi16. apply Ho; assumption.
    + intros Hbrkpt.
      apply (mon_exitstep_panics_brkpt m tf); [exact Htf | congruence | exact Hbrkpt].
Qed.

(** C2.  What the two trap-cause checks do.  On a breakpoint trap with the
    trap flag set [mon_step] runs, but [mon_exitstep] panics on its
    trap-cause check; on a trap that is neither a debug nor a breakpoint
    trap [mon_step] panics, but [mon_exitstep] runs and returns -2. *)
Theorem exitstep_trap_cause_check_differs :
  T_DEBUG <> T_BRKPT ->
  forall m tf argc argv,
    m_tf m = Some tf ->
    Z.testbit (tf_eflags tf) 8 = true ->
    (tf_trapno tf = T_BRKPT ->
     (exists m', mon_step argc argv m = Done (-2) m') /\
     mon_exitstep argc argv m
     = Stopped (Panic "Not already in debugging mode when calling exitstep\n") m)
    /\
    (tf_trapno tf <> T_DEBUG -> tf_trapno tf <> T_BRKPT ->
     mon_step argc argv m
     = Stopped (Panic "Not already in debugging mode when calling step\n") m /\
     (exists m', mon_exitstep argc argv m = Done (-2) m')).
Proof.
  intros Hdistinct m tf argc argv Htf Hbit. split.
  - intros Hb. split.
    + eexists. apply (mon_step_run m tf); [exact Htf | right; exact Hb].
    + apply (mon_exitstep_panics_brkpt m tf); [exact Htf | congruence | exact Hb].
  - intros Hd Hb. split.
    + apply (mon_step_panics m tf); assumption.
    + eexists. apply (mon_exitstep_run m tf); [exact Htf | right; exact Hb | exact Hbit].
Qed.

(** C8, as amended.  On a debug trap, [mon_step] followed by [mon_exitstep]
    leaves the trap flag clear and the resume flag set whatever they were
    before, and every other bit of the flags register as it was; and
    [mon_exitstep] on a trap frame whose trap flag is clear panics, leaving
    the machine as it was. *)
Theorem step_then_exitstep :
  forall m tf argc argv argc' argv',
    m_tf m = Some tf -> is_uint32 (tf_eflags tf) ->
    tf_trapno tf = T_DEBUG ->
    (exists e,
        bind (mon_step argc argv) (fun _ => mon_exitstep argc' argv') m
        = Done (-2) (with_eflags m tf e) /\
        Z.testbit e 8 = false /\ Z.testbit e 16 = true /\
        forall i, i <> 8 -> i <> 16 -> Z.testbit e i = Z.testbit (tf_eflags tf) i)
    /\
    (forall m0 tf0,
        m_tf m0 = Some tf0 -> Z.testbit (tf_eflags tf0) 8 = false ->
        exists msg, mon_exitstep argc' argv' m0 = Stopped (Panic msg) m0).
Proof.
  intros m tf argc argv argc' argv' Htf He Hcause. split.
  - set (e1 := set_then_clear (tf_eflags tf) 8 16).
    destruct (set_then_clear_bits (tf_eflags tf) 8 16) as (H1s & H1c & H1o);
      [assumption | lia | lia | lia |].
    fold e1 in H1s, H1c, H1o.
    assert (He1 : is_uint32 e1) by apply wrap32_range.
    destruct (set_then_clear_bits e1 16 8) as (H2s & H2c & H2o);
      [assumption | lia | lia | lia |].
    exists (set_then_clear e1 16 8).
    split; [| repeat split].
    + unfold bind at 1.
      rewrite (mon_step_run m tf) by (try left; assumption).
      fold e1.
      rewrite (mon_exitstep_run (with_eflags m tf e1)
                 (mkTrapframe (tf_ebp tf) (tf_trapno tf) (tf_eip tf) e1));
        [reflexivity | reflexivity | left; exact Hcause | exact H1s].
    + exact H2c.
    + exact H2s.
    + intros i Hi8 Hi16. rewrite H2o by assumption. apply H1o; assumption.
  - intros m0 tf0 Htf0 Hbit0.
    apply (mon_exitstep_panics_not_stepping m0 tf0); assumption.
Qed.

End StepController.

(** The failing input of C7, [exitstep] on a breakpoint trap with flags
    0x302, beside a [step] on the same trap and an [exitstep] on a debug
    trap. *)
Lemma exitstep_on_breakpoint_touches_no_bit_witness :
  (exists e,
      Monitor.mon_step 1 3 1 ["step"] (machine_of (brkpt_frame 0x10202))
      = Done (-2) (with_eflags (machine_of (brkpt_frame 0x10202))
                               (brkpt_frame 0x10202) e) /\
      Z.testbit e 8 = true /\ Z.testbit e 16 = false /\
      forall i, i <> 8 -> i <> 16 -> Z.testbit e i = Z.testbit 0x10202 i)
  /\
  (exists e,
      Monitor.mon_exitstep 1 3 1 ["exitstep"] (machine_of (debug_frame 0x302))
      = Done (-2) (with_eflags (machine_of (debug_frame 0x302))
                               (debug_frame 0x302) e) /\
      Z.testbit e 8 = false /\ Z.testbit e 16 = true /\
      forall i, i <> 8 -> i <> 16 -> Z.testbit e i = Z.testbit 0x302 i)
  /\
  Monitor.mon_exitstep 1 3 1 ["exitstep"] (machine_of (brkpt_frame 0x302))
  = Stopped (Panic "Not already in debugging mode when calling exitstep\n")
            (machine_of (brkpt_frame 0x302)).
Proof.
  split; [| split].
  - apply (proj1 (exitstep_on_breakpoint_touches_no_bit 1 3
                    (machine_of (brkpt_frame 0x10202)) (brkpt_frame 0x10202)
                    1 ["step"] 1 ["exitstep"] ltac:(lia) eq_refl
                    ltac:(unfold is_uint32; simpl; lia) (or_intror eq_refl))).
  - apply (proj2 (exitstep_on_breakpoint_touches_no_bit 1 3
                    (machine_of (debug_frame 0x302)) (debug_frame 0x302)
                    1 ["step"] 1 ["exitstep"] ltac:(lia) eq_refl
                    ltac:(unfold is_uint32; simpl; lia) (or_introl eq_refl))
             eq_refl).
    reflexivity.
  - apply (proj2 (exitstep_on_breakpoint_touches_no_bit 1 3
                    (machine_of (brkpt_frame 0x302)) (brkpt_frame 0x302)
                    1 ["step"] 1 ["exitstep"] ltac:(lia) eq_refl
                    ltac:(unfold is_uint32; simpl; lia) (or_intror eq_refl))
             eq_refl).
    reflexivity.
Defined.

(** The two failing inputs of C2: [exitstep] on a breakpoint trap, and on
    a page fault, both with the trap flag set. *)
Lemma exitstep_trap_cause_check_differs_witness :
  ((exists m', Monitor.mon_step 1 3 1 ["step"] (machine_of (brkpt_frame 0x302))
               = Done (-2) m') /\
   Monitor.mon_exitstep 1 3 1 ["exitstep"] (machine_of (brkpt_frame 0x302))
   = Stopped (Panic "Not already in debugging mode when calling exitstep\n")
             (machine_of (brkpt_frame 0x302)))
  /\
  (Monitor.mon_step 1 3 1 ["step"] (machine_of (pgflt_frame 0x302))
   = Stopped (Panic "Not already in debugging mode when calling step\n")
             (machine_of (pgflt_frame 0x302)) /\
   (exists m', Monitor.mon_exitstep 1 3 1 ["exitstep"] (machine_of (pgflt_frame 0x302))
               = Done (-2) m')).
Proof.
  split.
  - apply (proj1 (exitstep_trap_cause_check_differs 1 3 ltac:(lia)
                    (machine_of (brkpt_frame 0x302)) (brkpt_frame 0x302)
                    1 ["step"] eq_refl eq_refl)).
    reflexivity.
  - pose proof (proj2 (exitstep_trap_cause_check_differs 1 3 ltac:(lia)
                         (machine_of (pgflt_frame 0x302)) (pgflt_frame 0x302)
                         1 ["step"] eq_refl eq_refl)) as H.
    apply H; vm_compute; discriminate.
Defined.

(** C8 as stated fails: from flags 0x202 (trap flag and resume flag both
    clear) [step] and then [exitstep] end with flags 0x10202, whose resume
    flag is set. *)
Lemma step_then_exitstep_changes_resume_flag :
  bind (Monitor.mon_step 1 3 1 ["step"])
       (fun _ => Monitor.mon_exitstep 1 3 1 ["exitstep"])
       (machine_of (debug_frame 0x202))
  = Done (-2) (machine_of (debug_frame 0x10202))
  /\ Z.testbit 0x202 16 = false /\ Z.testbit 0x10202 16 = true.
Proof. repeat split. Qed.

Lemma step_then_exitstep_witness :
  exists e,
    bind (Monitor.mon_step 1 3 1 ["step"])
         (fun _ => Monitor.mon_exitstep 1 3 1 ["exitstep"])
         (machine_of (debug_frame 0x202))
    = Done (-2) (with_eflags (machine_of (debug_frame 0x202)) (debug_frame 0x202) e) /\
    Z.testbit e 8 = false /\ Z.testbit e 16 = true /\
    forall i, i <> 8 -> i <> 16 -> Z.testbit e i = Z.testbit 0x202 i.
Proof.
  apply (step_then_exitstep 1 3 (machine_of (debug_frame 0x202)) (debug_frame 0x202)
           1 ["step"] 1 ["exitstep"]).
  - reflexivity.
  - unfold is_uint32. simpl. lia.
  - reflexivity.
Defined.

(** ** The tokenizer of [runcmd] *)

Lemma string_app_nil_r (s : string) : (s ++ "")%string = s.
Proof. induction s as [| c s IH]; simpl; [reflexivity | rewrite IH; reflexivity]. Qed.

Lemma string_app_assoc (a b c : string) :
  ((a ++ b) ++ c)%string = (a ++ (b ++ c))%string.
Proof. induction a as [| x a IH]; simpl; [reflexivity | rewrite IH; reflexivity]. Qed.

Lemma tokens_gobble buf : tokens (Monitor.gobble buf) = tokens buf.
Proof.
  unfold tokens. induction buf as [| c r IH]; simpl.
  - reflexivity.
  - destruct (Monitor.is_whitespace c) eqn:Hc.
    + exact IH.
    + simpl. rewrite Hc. reflexivity.
Qed.

Lemma gobble_length buf :
  (String.length (Monitor.gobble buf) <= String.length buf)%nat.
Proof.
  induction buf as [| c r IH]; simpl.
  - lia.
  - destruct (Monitor.is_whitespace c); simpl; lia.
Qed.

Lemma gobble_head buf c r :
  Monitor.gobble buf = String c r -> Monitor.is_whitespace c = false.
Proof.
  induction buf as [| c0 r0 IH]; simpl.
  - discriminate.
  - destruct (Monitor.is_whitespace c0) eqn:Hc0.
    + exact IH.
    + intros H. injection H as -> _. exact Hc0.
Qed.

Lemma scan_arg_split cur buf :
  split_ws cur buf
  = (flush (cur ++ fst (Monitor.scan_arg buf))
     ++ tokens (snd (Monitor.scan_arg buf)))%list.
Proof.
  unfold tokens. revert cur. induction buf as [| c r IH]; intros cur; simpl.
  - rewrite string_app_nil_r, app_nil_r. reflexivity.
  - destruct (Monitor.is_whitespace c) eqn:Hc; simpl.
    + rewrite string_app_nil_r, Hc. reflexivity.
    + rewrite IH. destruct (Monitor.scan_arg r) as [arg rest]. simpl.
      rewrite string_app_assoc. reflexivity.
Qed.

Lemma scan_arg_length buf :
  (String.length (fst (Monitor.scan_arg buf))
   + String.length (snd (Monitor.scan_arg buf)) = String.length buf)%nat.
Proof.
  induction buf as [| c r IH]; simpl.
  - reflexivity.
  - destruct (Monitor.is_whitespace c); simpl.
    + reflexivity.
    + destruct (Monitor.scan_arg r) as [arg rest]. simpl in *. lia.
Qed.

Lemma tokens_scan_arg c r :
  Monitor.is_whitespace c = false ->
  exists arg rest,
    Monitor.scan_arg (String c r) = (arg, rest) /\
    tokens (String c r) = arg :: tokens rest /\
    (String.length rest < String.length (String c r))%nat.
Proof.
  intros Hc.
  pose proof (scan_arg_split EmptyString (String c r)) as Hsplit.
  pose proof (scan_arg_length (String c r)) as Hsum.
  fold (tokens (String c r)) in Hsplit.
  cbn [Monitor.scan_arg] in *. rewrite Hc in *.
  destruct (Monitor.scan_arg r) as [arg rest].
  exists (String c arg), rest. cbn in Hsplit, Hsum.
  repeat split; [exact Hsplit | cbn; lia].
Qed.

(** With a budget above the length of the line the parsing loop ends, with
    the arguments of the line when there is room for them and in the
    overflow return otherwise. *)
Lemma parse_args_tokens fuel : forall buf argc argv,
  (String.length buf < fuel)%nat -> 0 <= argc <= Monitor.MAXARGS - 1 ->
  Monitor.parse_args fuel buf argc argv
  = if argc + Z.of_nat (List.length (tokens buf)) <=? Monitor.MAXARGS - 1
    then Some (Monitor.Argv (argc + Z.of_nat (List.length (tokens buf)))
                            (argv ++ tokens buf)%list)
    else Some Monitor.TooManyArgs.
Proof.
  induction fuel as [| fuel IH]; intros buf argc argv Hfuel Hargc.
  - lia.
  - cbn [Monitor.parse_args]. rewrite <- (tokens_gobble buf).
    pose proof (gobble_length buf) as Hlen.
    destruct (Monitor.gobble buf) as [| c r] eqn:Hg.
    + change (tokens "") with (@nil string).
      cbn [List.length Z.of_nat]. rewrite Z.add_0_r, app_nil_r.
      destruct (Z.leb_spec argc (Monitor.MAXARGS - 1)); [reflexivity | lia].
    + destruct (tokens_scan_arg c r (gobble_head buf c r Hg))
        as (arg & rest & Hscan & Htok & Hshort).
      rewrite Hscan, Htok. cbn [List.length]. rewrite Nat2Z.inj_succ.
      destruct (Z.eqb_spec argc (Monitor.MAXARGS - 1)) as [Hfull | Hroom].
      * destruct (Z.leb_spec (argc + Z.succ (Z.of_nat (List.length (tokens rest))))
                             (Monitor.MAXARGS - 1)); [lia | reflexivity].
      * rewrite IH by lia.
        replace (argc + 1 + Z.of_nat (List.length (tokens rest)))
          with (argc + Z.succ (Z.of_nat (List.length (tokens rest)))) by lia.
        rewrite <- app_assoc. reflexivity.
Qed.

Lemma parse_args_total buf :
  Monitor.parse_args (S (String.length buf)) buf 0 [] <> None.
Proof.
  rewrite parse_args_tokens by (unfold Monitor.MAXARGS; lia).
  destruct (_ <=? _); discriminate.
Qed.

(** ** The interpreter and the monitor loop *)

Section Interpreter.

Import Monitor.

Variables T_DEBUG T_BRKPT : Z.
Variable debuginfo_eip : Z -> option Eipdebuginfo.
Variables _start entry etext edata end_ KERNBASE : Z.

Let lookup :=
  Monitor.lookup T_DEBUG T_BRKPT debuginfo_eip _start entry etext edata end_ KERNBASE.
Let runcmd :=
  Monitor.runcmd T_DEBUG T_BRKPT debuginfo_eip _start entry etext edata end_ KERNBASE.
Let monitor_loop :=
  Monitor.monitor_loop T_DEBUG T_BRKPT debuginfo_eip _start entry etext edata end_
                       KERNBASE.

Lemma runcmd_tokens depth buf :
  runcmd depth buf
  = if Z.of_nat (List.length (tokens buf)) <=? MAXARGS - 1
    then match tokens buf with
         | [] => ret 0
         | _ :: _ => lookup depth commands (Z.of_nat (List.length (tokens buf)))
                            (tokens buf)
         end
    else (cprintf "Too many arguments (max %d)\n" [AInt MAXARGS] ;; ret 0).
Proof.
  unfold runcmd, Monitor.runcmd.
  rewrite parse_args_tokens by (unfold MAXARGS; lia).
  rewrite Z.add_0_l, app_nil_l.
  destruct (Z.leb_spec (Z.of_nat (List.length (tokens buf))) (MAXARGS - 1)).
  - destruct (tokens buf) as [| t ts]; [reflexivity |].
    cbn [List.length]. rewrite Nat2Z.inj_succ.
    destruct (Z.eqb_spec (Z.succ (Z.of_nat (List.length ts))) 0); [lia |].
    reflexivity.
  - reflexivity.
Qed.

(** C9.  MAXARGS - 1 is 15.  A line of at most 15 arguments is parsed
    without overflow: no argument at all is a silent return of 0, otherwise
    the command table is searched with exactly the arguments of the line.
    A line with a 16th argument takes the overflow return: the diagnostic
    with maximum 16 is printed, nothing else of the machine changes (no
    command runs), and the result is 0, the status an ordinary command
    gives as well. *)
Theorem runcmd_argument_limit :
  forall depth buf m,
    MAXARGS - 1 = 15
    /\
    ((List.length (tokens buf) <= 15)%nat ->
     runcmd depth buf m
     = match tokens buf with
       | [] => Done 0 m
       | _ :: _ => lookup depth commands (Z.of_nat (List.length (tokens buf)))
                          (tokens buf) m
       end)
    /\
    ((16 <= List.length (tokens buf))%nat ->
     runcmd depth buf m
     = Done 0 (add_console m [Cprintf "Too many arguments (max %d)\n" [AInt 16]])).
Proof.
  intros depth buf m. split; [reflexivity |].
  rewrite runcmd_tokens. unfold MAXARGS. split; intros Hn.
  - destruct (Z.leb_spec (Z.of_nat (List.length (tokens buf))) (16 - 1)); [| lia].
    destruct (tokens buf); reflexivity.
  - destruct (Z.leb_spec (Z.of_nat (List.length (tokens buf))) (16 - 1)); [lia |].
    reflexivity.
Qed.

Lemma monitor_loop_turn depth b rest m r m' :
  runcmd depth b m = Done r m' ->
  monitor_loop depth (Some b :: rest) m
  = if r <? 0 then Done rest m' else monitor_loop depth rest m'.
Proof.
  intros Hrun. unfold monitor_loop. cbn [Monitor.monitor_loop].
  unfold bind at 1. fold runcmd. rewrite Hrun.
  destruct (r <? 0); reflexivity.
Qed.

Lemma monitor_loop_done depth lines : forall m rest' m',
  monitor_loop depth lines m = Done rest' m' ->
  exists pre b m1 r,
    lines = (pre ++ Some b :: rest')%list /\
    runcmd depth b m1 = Done r m' /\ r < 0.
Proof.
  induction lines as [| l rest IH]; intros m rest' m' Hloop.
  - discriminate.
  - destruct l as [b |].
    + destruct (runcmd depth b m) as [r m1 | why m1] eqn:Hrun.
      * rewrite (monitor_loop_turn depth b rest m r m1 Hrun) in Hloop.
        destruct (Z.ltb_spec r 0) as [Hneg | Hpos].
        -- injection Hloop as <- <-.
           exists [], b, m, r. repeat split; assumption.
        -- destruct (IH _ _ _ Hloop) as (pre & b' & m2 & r' & -> & Hrun' & Hneg').
           exists (Some b :: pre)%list, b', m2, r'. repeat split; assumption.
      * unfold monitor_loop in Hloop. cbn [Monitor.monitor_loop] in Hloop.
        unfold bind at 1 in Hloop. fold runcmd in Hloop. rewrite Hrun in Hloop.
        discriminate.
    + destruct (IH _ _ _ Hloop) as (pre & b' & m2 & r' & -> & Hrun' & Hneg').
      exists (None :: pre)%list, b', m2, r'. repeat split; assumption.
Qed.

(** C1, as amended.  The loop of [monitor] breaks exactly when [runcmd]
    returns a negative value: after a turn whose [runcmd] returned [r] the
    loop has ended if [r < 0] and goes on to the next [readline] otherwise,
    and a loop that has ended did so on a negative return.  The resume
    value -2 is negative: a [step] on a debug or breakpoint trap, and an
    [exitstep] on a debug trap with the trap flag set, return -2 and end the
    loop with the rest of the input unread. *)
Theorem monitor_loop_breaks_on_negative :
  forall depth rest m,
    (forall b r m',
        runcmd depth b m = Done r m' ->
        monitor_loop depth (Some b :: rest) m
        = if r <? 0 then Done rest m' else monitor_loop depth rest m')
    /\
    (forall lines rest' m',
        monitor_loop depth lines m = Done rest' m' ->
        exists pre b m1 r,
          lines = (pre ++ Some b :: rest')%list /\
          runcmd depth b m1 = Done r m' /\ r < 0)
    /\
    (forall tf,
        m_tf m = Some tf ->
        tf_trapno tf = T_DEBUG \/ tf_trapno tf = T_BRKPT ->
        exists m',
          runcmd depth "step" m = Done (-2) m' /\
          monitor_loop depth (Some "step" :: rest) m = Done rest m')
    /\
    (forall tf,
        m_tf m = Some tf ->
        tf_trapno tf = T_DEBUG -> Z.testbit (tf_eflags tf) 8 = true ->
        exists m',
          runcmd depth "exitstep" m = Done (-2) m' /\
          monitor_loop depth (Some "exitstep" :: rest) m = Done rest m').
Proof.
  intros depth rest m. repeat split.
  - intros b r m' Hrun. apply monitor_loop_turn. exact Hrun.
  - intros lines rest' m' Hloop. apply (monitor_loop_done depth lines m). exact Hloop.
  - intros tf Htf Hcause.
    assert (Hrun : runcmd depth "step" m
                   = Done (-2) (with_eflags m tf (set_then_clear (tf_eflags tf) 8 16))).
    { change (runcmd depth "step") with (Monitor.mon_step T_DEBUG T_BRKPT 1 ["step"]).
      apply mon_step_run; assumption. }
    eexists. split; [exact Hrun |].
    rewrite (monitor_loop_turn _ _ _ _ _ _ Hrun). reflexivity.
  - intros tf Htf Hcause Hbit.
    assert (Hrun : runcmd depth "exitstep" m
                   = Done (-2) (with_eflags m tf (set_then_clear (tf_eflags tf) 16 8))).
    { change (runcmd depth "exitstep")
        with (Monitor.mon_exitstep T_DEBUG T_BRKPT 1 ["exitstep"]).
      apply mon_exitstep_run; [exact Htf | left; exact Hcause | exact Hbit]. }
    eexists. split; [exact Hrun |].
    rewrite (monitor_loop_turn _ _ _ _ _ _ Hrun). reflexivity.
Qed.

End Interpreter.

(** ** The stack unwinder *)

Lemma follow_app mem pre : forall ebp post,
  follow mem ebp (pre ++ post)
  = match follow mem ebp pre with
    | Some ebp' => follow mem ebp' post
    | None => None
    end.
Proof.
  induction pre as [| fp pre IH]; intros ebp post; simpl.
  - reflexivity.
  - destruct ((ebp =? fp) && negb (fp =? 0)); [apply IH | reflexivity].
Qed.

Lemma add_console_nil m : add_console m [] = m.
Proof. destruct m. unfold add_console. simpl. rewrite app_nil_r. reflexivity. Qed.

Lemma add_console_app m a b :
  add_console (add_console m a) b = add_console m (a ++ b).
Proof. unfold add_console. simpl. rewrite app_assoc. reflexivity. Qed.

Section Unwinder.

Import Monitor.

Variable debuginfo_eip : Z -> option Eipdebuginfo.

Let backtrace_loop := Monitor.backtrace_loop debuginfo_eip.
Let mon_backtrace := Monitor.mon_backtrace debuginfo_eip.

Lemma backtrace_loop_frames pre : forall outs ebp ebp' m k,
  follow (m_mem m) ebp pre = Some ebp' ->
  map (resolved debuginfo_eip (m_mem m)) pre = map Some outs ->
  backtrace_loop (List.length pre + k) ebp m
  = backtrace_loop k ebp' (add_console m outs).
Proof.
  induction pre as [| fp pre IH]; intros outs ebp ebp' m k Hfollow Hres.
  - destruct outs; [| discriminate]. injection Hfollow as <-.
    rewrite add_console_nil. reflexivity.
  - destruct outs as [| o outs]; [discriminate |].
    injection Hres as Ho Hres.
    cbn [follow] in Hfollow.
    destruct (Z.eqb_spec ebp fp) as [-> | ]; [| discriminate].
    destruct (Z.eqb_spec fp 0) as [| Hnz]; [discriminate |].
    cbn [andb negb] in Hfollow.
    unfold backtrace_loop. cbn [List.length Nat.add Monitor.backtrace_loop].
    apply Z.eqb_neq in Hnz. rewrite Hnz.
    unfold resolved in Ho. cbn [frame_at return_address] in Ho.
    unfold bind at 1, gets.
    destruct (debuginfo_eip (load (m_mem m) (fp + 4))) as [info |]; [| discriminate].
    injection Ho as <-.
    unfold bind at 1, cprintf at 1, modify.
    fold (add_console m [Cprintf backtrace_fmt (frame_args (m_mem m) fp info)]).
    fold backtrace_loop.
    rewrite (IH outs (load (m_mem m) fp) ebp'); [| exact Hfollow | exact Hres].
    rewrite add_console_app. reflexivity.
Qed.

Lemma mon_backtrace_unfold depth argc argv m :
  mon_backtrace depth argc argv m
  = match backtrace_loop depth (m_ebp m)
            (add_console m [Cprintf "Stack backtrace:\n" []]) with
    | Done _ m' => Done 0 m'
    | Stopped why m' => Stopped why m'
    end.
Proof. reflexivity. Qed.

(** C6.  On a chain of [k] frames that ends in a null link (and a walk
    budget of at least [k]), [mon_backtrace] prints the heading and then one
    line per frame, from the frame at the frame-pointer register outwards,
    and returns 0; the line of a frame shows its frame pointer, the word at
    offset +4 as return address and the words at offsets +8 to +24 as
    arguments ([frame_at]), and the next frame is the one the word at the
    frame pointer points to ([follow]).  If the return address of a frame
    does not resolve, the lines of the frames before it are printed and the
    command panics. *)
Theorem backtrace_walks_chain :
  forall depth argc argv m fps,
    is_chain (m_mem m) (m_ebp m) fps = true ->
    (List.length fps <= depth)%nat ->
    (forall outs,
        map (resolved debuginfo_eip (m_mem m)) fps = map Some outs ->
        List.length outs = List.length fps /\
        mon_backtrace depth argc argv m
        = Done 0 (add_console m (Cprintf "Stack backtrace:\n" [] :: outs)))
    /\
    (forall pre fp post outs,
        fps = (pre ++ fp :: post)%list ->
        map (resolved debuginfo_eip (m_mem m)) pre = map Some outs ->
        resolved debuginfo_eip (m_mem m) fp = None ->
        mon_backtrace depth argc argv m
        = Stopped (Panic "Address not found in mon_backtrace")
                  (add_console m (Cprintf "Stack backtrace:\n" [] :: outs))).
Proof.
  intros depth argc argv m fps Hchain Hdepth.
  unfold is_chain in Hchain.
  destruct (follow (m_mem m) (m_ebp m) fps) as [last |] eqn:Hfollow;
    [| discriminate].
  apply Z.eqb_eq in Hchain. subst last.
  set (m1 := add_console m [Cprintf "Stack backtrace:\n" []]).
  split.
  - intros outs Hres. split.
    + rewrite <- (length_map (resolved debuginfo_eip (m_mem m)) fps), Hres, length_map.
      reflexivity.
    + rewrite mon_backtrace_unfold. fold m1.
      replace depth with (List.length fps + (depth - List.length fps))%nat by lia.
      rewrite (backtrace_loop_frames fps outs (m_ebp m) 0 m1);
        [| exact Hfollow | exact Hres].
      unfold m1. rewrite add_console_app.
      destruct (depth - List.length fps)%nat; reflexivity.
  - intros pre fp post outs -> Hres Hfail.
    rewrite follow_app in Hfollow.
    destruct (follow (m_mem m) (m_ebp m) pre) as [ebp' |] eqn:Hpre;
      [| discriminate].
    cbn [follow] in Hfollow.
    destruct (Z.eqb_spec ebp' fp) as [-> |]; [| discriminate].
    destruct (Z.eqb_spec fp 0) as [| Hnz]; [discriminate |].
    rewrite length_app in Hdepth. cbn [List.length] in Hdepth.
    rewrite mon_backtrace_unfold. fold m1.
    replace depth
      with (List.length pre + S (depth - List.length pre - 1))%nat by lia.
    rewrite (backtrace_loop_frames pre outs (m_ebp m) fp m1);
      [| exact Hpre | exact Hres].
    unfold m1. rewrite add_console_app.
    unfold backtrace_loop. cbn [Monitor.backtrace_loop].
    apply Z.eqb_neq in Hnz. rewrite Hnz.
    unfold resolved in Hfail. cbn [frame_at return_address] in Hfail.
    unfold bind at 1, gets. cbn [m_mem add_console].
    destruct (debuginfo_eip (load (m_mem m) (fp + 4))); [discriminate |].
    reflexivity.
Qed.

End Unwinder.

(** ** Concrete runs of the monitor *)

(** C1 as stated fails: [step] on a debug trap returns -2, and the loop ends
    there; the line "help" that follows is never read. *)
Lemma monitor_loop_ends_on_resume :
  x86_runcmd 8 "step" (machine_of (debug_frame 0x202))
  = Done (-2) (machine_of (debug_frame 0x302))
  /\ x86_monitor_loop 8 [Some "step"; Some "help"] (machine_of (debug_frame 0x202))
     = Done [Some "help"] (machine_of (debug_frame 0x302)).
Proof. split; reflexivity. Qed.

Lemma monitor_loop_breaks_on_negative_witness :
  exists m',
    x86_runcmd 8 "step" (machine_of (brkpt_frame 0x202)) = Done (-2) m' /\
    x86_monitor_loop 8 [Some "step"; Some "help"] (machine_of (brkpt_frame 0x202))
    = Done [Some "help"] m'.
Proof.
  apply (proj1 (proj2 (proj2
           (monitor_loop_breaks_on_negative
              Monitor.T_DEBUG_x86 Monitor.T_BRKPT_x86 sample_debuginfo
              0x10000c 0xf010000c 0xf0101a75 0xf0112300 0xf0112960 0xf0000000
              8%nat [Some "help"] (machine_of (brkpt_frame 0x202)))))
           (brkpt_frame 0x202) eq_refl (or_intror eq_refl)).
Defined.

Lemma runcmd_argument_limit_witness :
  x86_runcmd 8 "step 2 3 4 5 6 7 8 9 10 11 12 13 14 15" (machine_of (debug_frame 0x202))
  = match tokens "step 2 3 4 5 6 7 8 9 10 11 12 13 14 15" with
    | [] => Done 0 (machine_of (debug_frame 0x202))
    | _ :: _ =>
        x86_lookup 8%nat Monitor.commands
          (Z.of_nat (List.length (tokens "step 2 3 4 5 6 7 8 9 10 11 12 13 14 15")))
          (tokens "step 2 3 4 5 6 7 8 9 10 11 12 13 14 15")
          (machine_of (debug_frame 0x202))
    end
  /\
  x86_runcmd 8 "step 2 3 4 5 6 7 8 9 10 11 12 13 14 15 16" (machine_of (debug_frame 0x202))
  = Done 0 (add_console (machine_of (debug_frame 0x202))
              [Monitor.Cprintf "Too many arguments (max %d)\n" [AInt 16]]).
Proof.
  split.
  - apply (runcmd_argument_limit
             Monitor.T_DEBUG_x86 Monitor.T_BRKPT_x86 sample_debuginfo
             0x10000c 0xf010000c 0xf0101a75 0xf0112300 0xf0112960 0xf0000000
             8%nat "step 2 3 4 5 6 7 8 9 10 11 12 13 14 15").
    vm_compute. lia.
  - apply (runcmd_argument_limit
             Monitor.T_DEBUG_x86 Monitor.T_BRKPT_x86 sample_debuginfo
             0x10000c 0xf010000c 0xf0101a75 0xf0112300 0xf0112960 0xf0000000
             8%nat "step 2 3 4 5 6 7 8 9 10 11 12 13 14 15 16").
    vm_compute. lia.
Defined.

Lemma backtrace_walks_chain_witness :
  (List.length [frame_line (frame_at sample_mem 0xf010ffb8)
                  (Monitor.mkEipdebuginfo "kern/init.c" 24 "test_backtrace" 14 0xf0100040);
                frame_line (frame_at sample_mem 0xf010ffd8)
                  (Monitor.mkEipdebuginfo "kern/init.c" 44 "i386_init" 9 0xf010009d)]
   = List.length [0xf010ffb8; 0xf010ffd8] /\
   Monitor.mon_backtrace sample_debuginfo 2 1 ["backtrace"] sample_machine
   = Done 0 (add_console sample_machine
       [ Monitor.Cprintf "Stack backtrace:\n" [];
         frame_line (frame_at sample_mem 0xf010ffb8)
           (Monitor.mkEipdebuginfo "kern/init.c" 24 "test_backtrace" 14 0xf0100040);
         frame_line (frame_at sample_mem 0xf010ffd8)
           (Monitor.mkEipdebuginfo "kern/init.c" 44 "i386_init" 9 0xf010009d) ]))
  /\
  Monitor.mon_backtrace partial_debuginfo 2 1 ["backtrace"] sample_machine
  = Stopped (Panic "Address not found in mon_backtrace")
      (add_console sample_machine
         [ Monitor.Cprintf "Stack backtrace:\n" [];
           frame_line (frame_at sample_mem 0xf010ffb8)
             (Monitor.mkEipdebuginfo "kern/init.c" 24 "test_backtrace" 14 0xf0100040) ]).
Proof.
  split.
  - apply (proj1 (backtrace_walks_chain sample_debuginfo 2 1 ["backtrace"]
                    sample_machine [0xf010ffb8; 0xf010ffd8] eq_refl (le_n 2))).
    reflexivity.
  - apply (proj2 (backtrace_walks_chain partial_debuginfo 2 1 ["backtrace"]
                    sample_machine [0xf010ffb8; 0xf010ffd8] eq_refl (le_n 2))
             [0xf010ffb8] 0xf010ffd8 []).
    + reflexivity.
    + reflexivity.
    + reflexivity.
Defined.

(** ** The file client *)

Lemma requests_app h1 h2 : requests (h1 ++ h2) = (requests h1 ++ requests h2)%list.
Proof.
  induction h1 as [| c h1 IH]; simpl.
  - reflexivity.
  - destruct c; simpl; rewrite IH; reflexivity.
Qed.

Lemma sint32_range z : - 2 ^ 31 <= sint32 z < 2 ^ 31.
Proof.
  unfold sint32.
  pose proof (Z.mod_pos_bound (z + 2 ^ 31) (2 ^ 32) ltac:(lia)). lia.
Qed.

Section ClientFacts.

Import FileClient.

Variables PGSIZE MAXPATHLEN E_BAD_PATH : Z.
Variable thisenv_env_id : Z.
Variable fd_alloc_ans : list Call -> Z * Z.
Variable fd_close_ans : list Call -> Z.
Variable ipc_find_env_ans : list Call -> Z.
Variable ipc_recv_ans : list Call -> Z * Fsipc.
Variable fd2num : Z -> Z.

Let fsipc := FileClient.fsipc ipc_find_env_ans ipc_recv_ans.
Let open :=
  FileClient.open MAXPATHLEN E_BAD_PATH thisenv_env_id fd_alloc_ans fd_close_ans
                  ipc_find_env_ans ipc_recv_ans fd2num.
Let devfile_read := FileClient.devfile_read PGSIZE ipc_find_env_ans ipc_recv_ans.
Let devfile_write := FileClient.devfile_write PGSIZE ipc_find_env_ans ipc_recv_ans.
Let devfile_stat := FileClient.devfile_stat ipc_find_env_ans ipc_recv_ans.

(** [fsipc] always returns: the reply value as an [int], in a state whose
    page is as the server left it. *)
Lemma fsipc_run type dstva st :
  fsipc type dstva st
  = Done (sint32 (fst (ipc_recv_ans (fsipc_calls ipc_find_env_ans type dstva st))))
         (mkClient (snd (ipc_recv_ans (fsipc_calls ipc_find_env_ans type dstva st)))
                   (fsipc_env ipc_find_env_ans st) (fsipc_calls ipc_find_env_ans type dstva st)).
Proof.
  unfold fsipc, FileClient.fsipc, fsipc_calls, fsipc_env.
  unfold bind, gets, ret, ipc_send, ipc_recv, ipc_find_env, set_fsenv,
    set_fsipcbuf, extcall, modify, bind, gets, ret.
  destruct (fsenv st =? 0); cbn; rewrite <- ?app_assoc; reflexivity.
Qed.

Lemma fsipc_requests type dstva st :
  requests (fsipc_calls ipc_find_env_ans type dstva st)
  = (requests (calls st) ++ [(type, fsipcbuf st)])%list.
Proof.
  unfold fsipc_calls. rewrite !requests_app.
  destruct (fsenv st =? 0); cbn; rewrite ?app_nil_r; reflexivity.
Qed.

Lemma max_buf_size_value :
  8 <= PGSIZE < 2 ^ 31 ->
  max_buf_size PGSIZE = PGSIZE - (sizeof_int + sizeof_size_t).
Proof.
  intros Hpg. unfold max_buf_size, sizeof_int, sizeof_size_t.
  rewrite wrap32_small by (unfold is_uint32; lia).
  apply sint32_small. lia.
Qed.

Lemma devfile_write_after_fsipc fd buf n st r st1 :
  8 <= PGSIZE < 2 ^ 31 -> is_uint32 n ->
  fsipc FSREQ_WRITE 0
        (mkClient (Fsipc_write (id (fd_file fd))
                               (Z.min n (PGSIZE - (sizeof_int + sizeof_size_t)))
                               (firstn (Z.to_nat (Z.min n (PGSIZE - (sizeof_int + sizeof_size_t))))
                                       buf))
                  (fsenv st) (calls st))
  = Done r st1 ->
  - 2 ^ 31 <= r < 2 ^ 31 ->
  devfile_write fd buf n st
  = if r <? 0 then Done r st1
    else if r <=? n
         then if r <=? PGSIZE then Done r st1
              else Stopped (Panic "assertion failed: r <= PGSIZE") st1
         else Stopped (Panic "assertion failed: r <= n") st1.
Proof.
  intros Hpg Hn Hfs Hr.
  unfold devfile_write, fsipc in *. run_client.
  rewrite (max_buf_size_value Hpg).
  assert (Hcap : wrap32 (PGSIZE - (sizeof_int + sizeof_size_t))
                 = PGSIZE - (sizeof_int + sizeof_size_t)).
  { apply wrap32_small. unfold is_uint32, sizeof_int, sizeof_size_t. lia. }
  rewrite Hcap.
  assert (Hmin : (if PGSIZE - (sizeof_int + sizeof_size_t) <? n
                  then PGSIZE - (sizeof_int + sizeof_size_t) else n)
                 = Z.min n (PGSIZE - (sizeof_int + sizeof_size_t))).
  { destruct (Z.ltb_spec (PGSIZE - (sizeof_int + sizeof_size_t)) n); lia. }
  rewrite Hmin, Hfs.
  destruct (Z.ltb_spec r 0) as [Hneg | Hpos]; [reflexivity |].
  rewrite (wrap32_small r) by (unfold is_uint32; lia).
  destruct (r <=? n); [| reflexivity].
  destruct (r <=? PGSIZE); reflexivity.
Qed.

(** C3.  The capacity of a write request is PGSIZE less the two header
    fields, sizeof(int) + sizeof(size_t).  [devfile_write] sends exactly
    one request, whose byte count is [n] cut down to the capacity and whose
    payload is that many bytes of the caller's; its result is the
    Gateway's: a negative reply is returned as it is, a count within [n]
    and a page is returned, anything larger fails an assertion.  Cutting
    the count is no error of its own, and a count that is returned never
    exceeds [n]. *)
Theorem devfile_write_truncates :
  forall fd buf n st,
    8 <= PGSIZE < 2 ^ 31 -> is_uint32 n ->
    let capacity := PGSIZE - (sizeof_int + sizeof_size_t) in
    let req := Fsipc_write (id (fd_file fd)) (Z.min n capacity)
                           (firstn (Z.to_nat (Z.min n capacity)) buf) in
    max_buf_size PGSIZE = capacity /\
    (capacity < n -> Z.min n capacity = capacity) /\
    (exists r st1,
        fsipc FSREQ_WRITE 0 (mkClient req (fsenv st) (calls st)) = Done r st1 /\
        requests (calls st1) = (requests (calls st) ++ [(FSREQ_WRITE, req)])%list /\
        devfile_write fd buf n st
        = if r <? 0 then Done r st1
          else if r <=? n
               then if r <=? PGSIZE then Done r st1
                    else Stopped (Panic "assertion failed: r <= PGSIZE") st1
               else Stopped (Panic "assertion failed: r <= n") st1) /\
    (forall r st', devfile_write fd buf n st = Done r st' -> 0 <= r -> r <= n).
Proof.
  intros fd buf n st Hpg Hn capacity req.
  pose proof (fsipc_run FSREQ_WRITE 0 (mkClient req (fsenv st) (calls st))) as Hfs.
  set (h := fsipc_calls ipc_find_env_ans FSREQ_WRITE 0 (mkClient req (fsenv st) (calls st))) in Hfs.
  set (r1 := sint32 (fst (ipc_recv_ans h))) in Hfs.
  set (st1 := mkClient (snd (ipc_recv_ans h))
                       (fsipc_env ipc_find_env_ans (mkClient req (fsenv st) (calls st))) h) in Hfs.
  pose proof (devfile_write_after_fsipc fd buf n st r1 st1 Hpg Hn Hfs
                (sint32_range _)) as Hrun.
  split; [apply max_buf_size_value; exact Hpg |].
  split; [intros Hbig; lia |].
  split.
  - exists r1, st1. split; [exact Hfs |]. split; [| exact Hrun].
    unfold st1, h. cbn [calls]. apply fsipc_requests.
  - intros r st' Hdone Hpos. rewrite Hrun in Hdone.
    destruct (Z.ltb_spec r1 0) as [Hneg | _].
    + injection Hdone as <- _. lia.
    + destruct (Z.leb_spec r1 n) as [Hle | _]; [| discriminate].
      destruct (r1 <=? PGSIZE); [| discriminate].
      injection Hdone as <- _. exact Hle.
Qed.

(** C4.  A path of MAXPATHLEN characters or more makes [open] return
    -E_BAD_PATH at once: the only call it has made is the [cprintf] that
    opens the function, so neither [fd_alloc] nor [ipc_send] has run, and
    the request page and the cached server are as before. *)
Theorem open_rejects_long_path :
  forall path mode st,
    is_uint32 MAXPATHLEN ->
    MAXPATHLEN <= strlen path ->
    open path mode st
    = Done (- E_BAD_PATH)
           (mkClient (fsipcbuf st) (fsenv st)
                     (calls st ++ [C_cprintf "[open] path: %s\n" [AStr path]])).
Proof.
  intros path mode st Hmax Hlong.
  unfold open. run_client.
  rewrite (wrap32_small MAXPATHLEN Hmax).
  destruct (Z.leb_spec MAXPATHLEN (strlen path)); [reflexivity | lia].
Qed.

(** C5.  When the path is short enough and [fd_alloc] succeeds with
    descriptor [fd], [open] fills the request page and calls the Gateway.
    If the Gateway's result [r] is negative, [open] calls [fd_close(fd, 0)]
    and returns [r]; otherwise it returns [fd2num(fd)] and does not close
    the descriptor. *)
Theorem open_gateway_result :
  forall path mode st r0 fd r st2,
    is_uint32 MAXPATHLEN ->
    strlen path < MAXPATHLEN ->
    let h1 := (calls st ++ [C_cprintf "[open] path: %s\n" [AStr path]]
                 ++ [C_fd_alloc])%list in
    let st1 := mkClient (Fsipc_open path mode) (fsenv st)
                 (h1 ++ [C_cprintf "[%08x][open] new path in fsipcbuf: %s\n"
                                   [AInt thisenv_env_id; AStr path]])%list in
    fd_alloc_ans h1 = (r0, fd) -> 0 <= r0 ->
    fsipc FSREQ_OPEN fd st1 = Done r st2 ->
    (r < 0 ->
     open path mode st
     = Done r (mkClient (fsipcbuf st2) (fsenv st2)
                        (calls st2 ++ [C_fd_close fd 0])))
    /\
    (0 <= r -> open path mode st = Done (fd2num fd) st2).
Proof.
  intros path mode st r0 fd r st2 Hmax Hshort h1 st1 Halloc Hr0 Hfs.
  assert (Hopen : open path mode st
                  = if r <? 0
                    then Done r (mkClient (fsipcbuf st2) (fsenv st2)
                                          (calls st2 ++ [C_fd_close fd 0]))
                    else Done (fd2num fd) st2).
  { unfold open, fsipc in *. run_client.
    rewrite (wrap32_small MAXPATHLEN Hmax).
    destruct (Z.leb_spec MAXPATHLEN (strlen path)); [lia |].
    cbn [fsipcbuf fsenv calls]. rewrite <- app_assoc. fold h1. rewrite Halloc.
    destruct (Z.ltb_spec r0 0); [lia |].
    cbn [fsipcbuf fsenv calls]. fold st1. rewrite Hfs.
    destruct (r <? 0); reflexivity. }
  rewrite Hopen. split; intros Hr.
  - destruct (Z.ltb_spec r 0); [reflexivity | lia].
  - destruct (Z.ltb_spec r 0); [lia | reflexivity].
Qed.

(** C10.  When the Gateway's result is negative, [devfile_read] returns it
    with the caller's buffer as it was, and [devfile_stat] returns it with
    the caller's record as it was. *)
Theorem read_and_stat_keep_outputs_on_error :
  forall fd buf n rec st,
    (forall r st1,
        fsipc FSREQ_READ 0
              (mkClient (Fsipc_read (id (fd_file fd)) n) (fsenv st) (calls st))
        = Done r st1 ->
        r < 0 ->
        devfile_read fd buf n st = Done (r, buf) st1)
    /\
    (forall r st1,
        fsipc FSREQ_STAT 0
              (mkClient (Fsipc_stat (id (fd_file fd))) (fsenv st) (calls st))
        = Done r st1 ->
        r < 0 ->
        devfile_stat fd rec st = Done (r, rec) st1).
Proof.
  intros fd buf n rec st. split; intros r st1 Hfs Hneg.
  - unfold devfile_read, fsipc in *. run_client. rewrite Hfs.
    destruct (Z.ltb_spec r 0); [reflexivity | lia].
  - unfold devfile_stat, fsipc in *. run_client. rewrite Hfs.
    destruct (Z.ltb_spec r 0); [reflexivity | lia].
Qed.

End ClientFacts.

(** ** Concrete runs of the file client *)

Example sample_write_run :
  exists st', sample_write sample_fd (repeat Byte.x41 5000) 5000 fresh_client
              = Done 4088 st'.
Proof. eexists. vm_compute. reflexivity. Qed.

Example sample_open_missing_run :
  exists st', sample_open "/nofile" 0 fresh_client = Done (-11) st' /\
              last (FileClient.calls st') FileClient.C_fd_alloc
              = FileClient.C_fd_close 0xd0000000 0.
Proof. eexists. split; vm_compute; reflexivity. Qed.

Example sample_open_motd_run :
  exists st', sample_open "/motd" 0 fresh_client = Done 0 st' /\
              last (FileClient.calls st') FileClient.C_fd_alloc
              = FileClient.C_ipc_recv 0xd0000000.
Proof. eexists. split; vm_compute; reflexivity. Qed.

Lemma devfile_write_truncates_witness :
  FileClient.max_buf_size 4096 = 4096 - (FileClient.sizeof_int + FileClient.sizeof_size_t)
  /\ (forall r st',
         sample_write sample_fd (repeat Byte.x41 5000) 5000 fresh_client = Done r st' ->
         0 <= r -> r <= 5000).
Proof.
  pose proof (devfile_write_truncates 4096 sample_find_env sample_server
                sample_fd (repeat Byte.x41 5000) 5000 fresh_client) as H.
  cbv zeta in H.
  destruct H as (Hcap & _ & _ & Hle).
  - lia.
  - unfold is_uint32. lia.
  - split; [exact Hcap | exact Hle].
Defined.

Lemma open_rejects_long_path_witness :
  sample_open long_path 0 fresh_client
  = Done (- 12)
         (FileClient.mkClient (FileClient.Fsipc_flush 0) 0
            [FileClient.C_cprintf "[open] path: %s\n" [AStr long_path]]).
Proof.
  apply (open_rejects_long_path 1024 12 0x1002 sample_fd_alloc sample_fd_close
           sample_find_env sample_server sample_fd2num long_path 0 fresh_client).
  - unfold is_uint32. lia.
  - vm_compute. discriminate.
Defined.

Lemma open_gateway_result_witness :
  sample_open "/nofile" 0 fresh_client
  = Done (-11)
         (FileClient.mkClient
            (FileClient.fsipcbuf (after_open_request "/nofile" 0))
            (FileClient.fsenv (after_open_request "/nofile" 0))
            (FileClient.calls (after_open_request "/nofile" 0)
               ++ [FileClient.C_fd_close 0xd0000000 0]))
  /\
  sample_open "/motd" 0 fresh_client
  = Done (sample_fd2num 0xd0000000) (after_open_request "/motd" 0).
Proof.
  split.
  - apply (proj1 (open_gateway_result 1024 12 0x1002 sample_fd_alloc sample_fd_close
                    sample_find_env sample_server sample_fd2num
                    "/nofile" 0 fresh_client 0 0xd0000000 (-11)
                    (after_open_request "/nofile" 0)
                    ltac:(unfold is_uint32; lia) ltac:(vm_compute; reflexivity)
                    eq_refl ltac:(lia) eq_refl)).
    lia.
  - apply (proj2 (open_gateway_result 1024 12 0x1002 sample_fd_alloc sample_fd_close
                    sample_find_env sample_server sample_fd2num
                    "/motd" 0 fresh_client 0 0xd0000000 0
                    (after_open_request "/motd" 0)
                    ltac:(unfold is_uint32; lia) ltac:(vm_compute; reflexivity)
                    eq_refl ltac:(lia) eq_refl)).
    lia.
Defined.

Lemma read_and_stat_keep_outputs_on_error_witness :
  FileClient.devfile_read 4096 sample_find_env sample_server sample_fd
                          [Byte.x01; Byte.x02; Byte.x03] 3 fresh_client
  = Done (-3, [Byte.x01; Byte.x02; Byte.x03])
         (final_state
            (FileClient.fsipc sample_find_env sample_server FileClient.FSREQ_READ 0
               (FileClient.mkClient (FileClient.Fsipc_read 7 3) 0 [])))
  /\
  FileClient.devfile_stat sample_find_env sample_server sample_fd sample_stat
                          fresh_client
  = Done (-3, sample_stat)
         (final_state
            (FileClient.fsipc sample_find_env sample_server FileClient.FSREQ_STAT 0
               (FileClient.mkClient (FileClient.Fsipc_stat 7) 0 []))).
Proof.
  pose proof (read_and_stat_keep_outputs_on_error 4096 sample_find_env sample_server
                sample_fd [Byte.x01; Byte.x02; Byte.x03] 3 sample_stat fresh_client)
    as [Hread Hstat].
  split.
  - apply Hread; [reflexivity | lia].
  - apply Hstat; [reflexivity | lia].
Defined.

(** * Further properties *)

(** ** The tokenizer *)

Lemma tokens_all_whitespace s : all_whitespace s = true -> tokens s = [].
Proof.
  unfold tokens. induction s as [| c r IH]; simpl.
  - reflexivity.
  - destruct (Monitor.is_whitespace c); simpl; [exact IH | discriminate].
Qed.

Lemma has_whitespace_app a b :
  has_whitespace (a ++ b) = has_whitespace a || has_whitespace b.
Proof.
  induction a as [| c a IH]; simpl.
  - reflexivity.
  - rewrite IH, orb_assoc. reflexivity.
Qed.

Lemma split_ws_arg a : forall cur s,
  has_whitespace a = false ->
  split_ws cur (a ++ s) = split_ws (cur ++ a) s.
Proof.
  induction a as [| c a IH]; intros cur s Hws; simpl.
  - rewrite string_app_nil_r. reflexivity.
  - simpl in Hws. apply orb_false_iff in Hws. destruct Hws as [Hc Ha].
    rewrite Hc, IH by exact Ha.
    rewrite string_app_assoc. reflexivity.
Qed.

Lemma split_ws_args s : forall cur,
  has_whitespace cur = false ->
  forallb is_arg (split_ws cur s) = true.
Proof.
  induction s as [| c r IH]; intros cur Hcur; simpl.
  - destruct cur as [| x cur]; simpl; [reflexivity |].
    simpl in Hcur. rewrite Hcur. reflexivity.
  - destruct (Monitor.is_whitespace c) eqn:Hc.
    + rewrite forallb_app, (IH EmptyString) by reflexivity.
      destruct cur as [| x cur]; simpl; [reflexivity |].
      simpl in Hcur. rewrite Hcur. reflexivity.
    + apply IH. rewrite has_whitespace_app. simpl. rewrite Hcur, Hc. reflexivity.
Qed.

Lemma is_arg_no_whitespace a : is_arg a = true -> has_whitespace a = false.
Proof.
  destruct a as [| c a]; simpl; [discriminate |].
  intros H. apply negb_true_iff in H. exact H.
Qed.

Lemma tokens_join args : forallb is_arg args = true -> tokens (join args) = args.
Proof.
  unfold tokens. induction args as [| a rest IH]; intros Hargs.
  - reflexivity.
  - cbn [forallb] in Hargs. apply andb_true_iff in Hargs.
    destruct Hargs as [Ha Hrest].
    pose proof (is_arg_no_whitespace a Ha) as Hws.
    cbn [join]. destruct rest as [| b rest'].
    + rewrite <- (string_app_nil_r a) at 1.
      rewrite split_ws_arg by exact Hws. simpl.
      destruct a; [discriminate | reflexivity].
    + rewrite split_ws_arg by exact Hws. cbn [split_ws].
      replace (Monitor.is_whitespace " ") with true by reflexivity.
      rewrite (IH Hrest). simpl.
      destruct a; [discriminate | reflexivity].
Qed.

Lemma tokens_trailing_whitespace c s : forall cur,
  Monitor.is_whitespace c = true ->
  split_ws cur (s ++ String c EmptyString) = split_ws cur s.
Proof.
  intros cur Hc. revert cur. induction s as [| x s IH]; intros cur; simpl.
  - rewrite Hc, app_nil_r. reflexivity.
  - destruct (Monitor.is_whitespace x); rewrite IH; reflexivity.
Qed.

(** X17.  When the parsing loop of [runcmd] ends without overflow, [argc] is
    the number of arguments saved, it is at most MAXARGS - 1 (so the store
    [argv[argc] = 0] stays inside the array), and every argument has at
    least one character and no whitespace in it. *)
Theorem parse_args_invariant :
  forall buf argc argv,
    Monitor.parse_args (S (String.length buf)) buf 0 [] = Some (Monitor.Argv argc argv) ->
    argc = Z.of_nat (List.length argv) /\
    argc <= Monitor.MAXARGS - 1 /\
    forallb is_arg argv = true.
Proof.
  intros buf argc argv Hparse.
  rewrite parse_args_tokens in Hparse by (unfold Monitor.MAXARGS; lia).
  destruct (Z.leb_spec (0 + Z.of_nat (List.length (tokens buf)))
                       (Monitor.MAXARGS - 1)) as [Hle |]; [| discriminate].
  injection Hparse as <- <-. cbn [app].
  split; [lia | split; [exact Hle |]].
  apply split_ws_args. reflexivity.
Qed.

Lemma parse_args_invariant_witness :
  3 = Z.of_nat (List.length ["backtrace"; "-v"; "12"]) /\
  3 <= Monitor.MAXARGS - 1 /\
  forallb is_arg ["backtrace"; "-v"; "12"] = true.
Proof.
  apply (parse_args_invariant "  backtrace -v   12 " 3 ["backtrace"; "-v"; "12"]).
  reflexivity.
Defined.

(** X18.  Arguments written out with single spaces between them are read
    back as they were: splitting the joined line gives the arguments again,
    and the parsing loop of [runcmd] saves exactly them when they are at
    most 15. *)
Theorem parse_args_join :
  forall args,
    forallb is_arg args = true ->
    (List.length args <= 15)%nat ->
    tokens (join args) = args /\
    Monitor.parse_args (S (String.length (join args))) (join args) 0 []
    = Some (Monitor.Argv (Z.of_nat (List.length args)) args).
Proof.
  intros args Hargs Hlen.
  pose proof (tokens_join args Hargs) as Htok.
  split; [exact Htok |].
  rewrite parse_args_tokens by (unfold Monitor.MAXARGS; lia).
  rewrite Htok, Z.add_0_l, app_nil_l.
  destruct (Z.leb_spec (Z.of_nat (List.length args)) (Monitor.MAXARGS - 1));
    [reflexivity | unfold Monitor.MAXARGS in *; lia].
Qed.

Lemma parse_args_join_witness :
  tokens (join ["step"; "now"]) = ["step"; "now"] /\
  Monitor.parse_args (S (String.length (join ["step"; "now"]))) (join ["step"; "now"]) 0 []
  = Some (Monitor.Argv (Z.of_nat (List.length ["step"; "now"])) ["step"; "now"]).
Proof.
  apply (parse_args_join ["step"; "now"]).
  - reflexivity.
  - simpl. lia.
Defined.

(** ** Machines that only grow *)

Lemma same_memory_refl m : same_memory m m.
Proof. repeat split. exists []. rewrite app_nil_r. reflexivity. Qed.

Lemma same_memory_trans m1 m2 m3 :
  same_memory m1 m2 -> same_memory m2 m3 -> same_memory m1 m3.
Proof.
  intros (Hm1 & He1 & o1 & Hc1) (Hm2 & He2 & o2 & Hc2).
  repeat split; [congruence | congruence |].
  exists (o1 ++ o2)%list. rewrite Hc2, Hc1, app_assoc. reflexivity.
Qed.

Lemma grows_refl m : grows m m.
Proof. split; [reflexivity | apply same_memory_refl]. Qed.

Lemma grows_trans m1 m2 m3 : grows m1 m2 -> grows m2 m3 -> grows m1 m3.
Proof.
  intros [Ht1 Hs1] [Ht2 Hs2].
  split; [congruence | eapply same_memory_trans; eassumption].
Qed.

Lemma grows_add_console m outs : grows m (add_console m outs).
Proof. repeat split. exists outs. reflexivity. Qed.

(** ** The commands of the monitor *)

Section Commands.

Import Monitor.

Variables T_DEBUG T_BRKPT : Z.
Variable debuginfo_eip : Z -> option Eipdebuginfo.
Variables _start entry etext edata end_ KERNBASE : Z.

Local Abbreviation mon_kerninfo :=
  (Monitor.mon_kerninfo _start entry etext edata end_ KERNBASE).
Local Abbreviation backtrace_loop := (Monitor.backtrace_loop debuginfo_eip).
Local Abbreviation mon_backtrace := (Monitor.mon_backtrace debuginfo_eip).
Local Abbreviation mon_step := (Monitor.mon_step T_DEBUG T_BRKPT).
Local Abbreviation mon_exitstep := (Monitor.mon_exitstep T_DEBUG T_BRKPT).
Local Abbreviation call :=
  (Monitor.call T_DEBUG T_BRKPT debuginfo_eip _start entry etext edata end_ KERNBASE).
Local Abbreviation lookup :=
  (Monitor.lookup T_DEBUG T_BRKPT debuginfo_eip _start entry etext edata end_ KERNBASE).
Local Abbreviation runcmd :=
  (Monitor.runcmd T_DEBUG T_BRKPT debuginfo_eip _start entry etext edata end_ KERNBASE).
Local Abbreviation monitor_loop :=
  (Monitor.monitor_loop T_DEBUG T_BRKPT debuginfo_eip _start entry etext edata end_
                        KERNBASE).
Local Abbreviation monitor :=
  (Monitor.monitor T_DEBUG T_BRKPT debuginfo_eip _start entry etext edata end_
                   KERNBASE).

(** [help] prints one line for every command of the table, in the
    order of the table, each with the name and the description, returns 0
    and changes nothing else. *)
Theorem mon_help_lists_commands :
  forall argc argv m,
    mon_help argc argv m
    = Done 0 (add_console m
                (map (fun c => Cprintf "%s - %s\n" [AStr (name c); AStr (desc c)])
                     commands)).
Proof.
  intros argc argv m. unfold mon_help, add_console, commands.
  cbv [bind cprintf modify ret map name desc m_tf m_console m_mem m_ebp].
  rewrite <- !app_assoc. reflexivity.
Qed.

Lemma mon_kerninfo_grows argc argv m :
  exists m', mon_kerninfo argc argv m = Done 0 m' /\ grows m m'.
Proof.
  eexists. split.
  - unfold Monitor.mon_kerninfo.
    cbv [bind cprintf modify ret m_tf m_console m_mem m_ebp]. reflexivity.
  - repeat split. cbn [m_console]. rewrite <- !app_assoc.
    eexists. reflexivity.
Qed.

Lemma backtrace_loop_grows fuel : forall ebp m,
  grows m (end_state (backtrace_loop fuel ebp m)).
Proof.
  induction fuel as [| fuel IH]; intros ebp m; cbn [Monitor.backtrace_loop].
  - destruct (ebp =? 0); apply grows_refl.
  - destruct (ebp =? 0); [apply grows_refl |].
    unfold bind at 1, gets.
    destruct (debuginfo_eip (load (m_mem m) (ebp + 4))) as [info |];
      [| apply grows_refl].
    unfold bind at 1, cprintf at 1, modify.
    eapply grows_trans; [| apply IH].
    apply (grows_add_console m [Cprintf backtrace_fmt (frame_args (m_mem m) ebp info)]).
Qed.

Lemma mon_backtrace_grows depth argc argv m :
  grows m (end_state (mon_backtrace depth argc argv m)) /\
  forall r m', mon_backtrace depth argc argv m = Done r m' -> r = 0.
Proof.
  rewrite mon_backtrace_unfold.
  pose proof (backtrace_loop_grows depth (m_ebp m)
                (add_console m [Cprintf "Stack backtrace:\n" []])) as Hloop.
  assert (Hm : grows m (add_console m [Cprintf "Stack backtrace:\n" []]))
    by apply grows_add_console.
  destruct (backtrace_loop depth (m_ebp m) _) as [u m1 | why m1]; cbn in *.
  - split; [eapply grows_trans; eassumption |].
    intros r m' H. injection H as <- _. reflexivity.
  - split; [eapply grows_trans; eassumption |]. discriminate.
Qed.

Lemma mon_step_same_memory argc argv m :
  same_memory m (end_state (mon_step argc argv m)) /\
  forall r m', mon_step argc argv m = Done r m' -> r = -2.
Proof.
  unfold Monitor.mon_step, bind, deref_tf, store_eflags, ret, panic, stop.
  destruct (m_tf m) as [tf |] eqn:Htf; cbn.
  - destruct (negb (tf_trapno tf =? T_DEBUG) && negb (tf_trapno tf =? T_BRKPT)); cbn.
    + split; [apply same_memory_refl | discriminate].
    + rewrite Htf. cbn. split.
      * repeat split. exists []. cbn. rewrite app_nil_r. reflexivity.
      * intros r m' H. injection H as <- _. reflexivity.
  - split; [apply same_memory_refl | discriminate].
Qed.

Lemma mon_exitstep_same_memory argc argv m :
  same_memory m (end_state (mon_exitstep argc argv m)) /\
  forall r m', mon_exitstep argc argv m = Done r m' -> r = -2.
Proof.
  unfold Monitor.mon_exitstep, bind, deref_tf, store_eflags, ret, panic, stop.
  destruct (m_tf m) as [tf |] eqn:Htf; cbn.
  - destruct (negb (tf_trapno tf =? T_DEBUG) && (tf_trapno tf =? T_BRKPT)); cbn.
    + split; [apply same_memory_refl | discriminate].
    + destruct (Z.land (tf_eflags tf) 256 =? 0); cbn.
      * split; [apply same_memory_refl | discriminate].
      * rewrite Htf. cbn. split.
        -- repeat split. exists []. cbn. rewrite app_nil_r. reflexivity.
        -- intros r m' H. injection H as <- _. reflexivity.
  - split; [apply same_memory_refl | discriminate].
Qed.

(** The search of the command table, by the first argument. *)
Lemma lookup_cases depth argc t ts :
  (t = "help" /\ lookup depth commands argc (t :: ts) = mon_help argc (t :: ts)) \/
  (t = "kerninfo" /\
   lookup depth commands argc (t :: ts) = mon_kerninfo argc (t :: ts)) \/
  (t = "backtrace" /\
   lookup depth commands argc (t :: ts) = mon_backtrace depth argc (t :: ts)) \/
  (t = "step" /\ lookup depth commands argc (t :: ts) = mon_step argc (t :: ts)) \/
  (t = "exitstep" /\
   lookup depth commands argc (t :: ts) = mon_exitstep argc (t :: ts)) \/
  (~ In t (map name commands) /\
   lookup depth commands argc (t :: ts)
   = (cprintf "Unknown command '%s'\n" [AStr t] ;; ret 0)).
Proof.
  unfold commands. cbn [Monitor.lookup hd name func Monitor.call map].
  destruct (String.eqb_spec t "help") as [-> | N1]; [left; split; reflexivity |].
  destruct (String.eqb_spec t "kerninfo") as [-> | N2];
    [right; left; split; reflexivity |].
  destruct (String.eqb_spec t "backtrace") as [-> | N3];
    [right; right; left; split; reflexivity |].
  destruct (String.eqb_spec t "step") as [-> | N4];
    [right; right; right; left; split; reflexivity |].
  destruct (String.eqb_spec t "exitstep") as [-> | N5];
    [right; right; right; right; left; split; reflexivity |].
  right; right; right; right; right. split; [| reflexivity].
  intros [H | [H | [H | [H | [H | []]]]]]; congruence.
Qed.

Lemma mon_help_grows argc argv m :
  exists m', mon_help argc argv m = Done 0 m' /\ grows m m'.
Proof.
  eexists. split.
  - unfold mon_help, commands.
    cbv [bind cprintf modify ret m_tf m_console m_mem m_ebp]. reflexivity.
  - repeat split. cbn [m_console]. rewrite <- !app_assoc.
    eexists. reflexivity.
Qed.

(** The three ways [runcmd] goes on after parsing. *)
Lemma runcmd_cases depth buf :
  (tokens buf = [] /\ runcmd depth buf = ret 0) \/
  ((15 < List.length (tokens buf))%nat /\
   runcmd depth buf = (cprintf "Too many arguments (max %d)\n" [AInt MAXARGS] ;; ret 0)) \/
  (exists t ts,
      tokens buf = t :: ts /\ (List.length ts < 15)%nat /\
      runcmd depth buf = lookup depth commands (Z.of_nat (S (List.length ts))) (t :: ts)).
Proof.
  rewrite (runcmd_tokens T_DEBUG T_BRKPT debuginfo_eip _start entry etext edata end_
             KERNBASE).
  unfold MAXARGS.
  destruct (Z.leb_spec (Z.of_nat (List.length (tokens buf))) (16 - 1)) as [Hle | Hgt].
  - destruct (tokens buf) as [| t ts].
    + left. split; reflexivity.
    + right; right. exists t, ts. cbn [List.length] in *.
      repeat split. lia.
  - right; left. split; [lia | reflexivity].
Qed.

(** X1.  A line with no argument on it (empty, or whitespace only) is a
    silent no-op: [runcmd] returns 0, prints nothing and leaves the trap
    frame as it was. *)
Theorem runcmd_blank_line :
  forall depth buf m,
    all_whitespace buf = true ->
    exists m',
      runcmd depth buf m = Done 0 m' /\
      m_tf m' = m_tf m /\
      m_console m' = m_console m.
Proof.
  intros depth buf m Hblank.
  pose proof (tokens_all_whitespace buf Hblank) as Htok.
  destruct (runcmd_cases depth buf) as [[_ ->] | [[Hlen _] | (t & ts & Ht & _)]].
  - exists m. repeat split.
  - rewrite Htok in Hlen. cbn in Hlen. lia.
  - rewrite Htok in Ht. discriminate.
Qed.

(** X2.  A line of at most 15 arguments whose first argument is not the
    name of a command gets the diagnostic "Unknown command" with that
    argument and nothing else on the console; [runcmd] returns 0 and
    leaves the trap frame as it was. *)
Theorem runcmd_unknown_command :
  forall depth buf t ts m,
    tokens buf = t :: ts ->
    (List.length ts < 15)%nat ->
    ~ In t (map name commands) ->
    exists m',
      runcmd depth buf m = Done 0 m' /\
      m_tf m' = m_tf m /\
      m_console m'
      = (m_console m ++ [Cprintf "Unknown command '%s'\n" [AStr t]])%list.
Proof.
  intros depth buf t ts m Htok Hlen Hunknown.
  destruct (runcmd_cases depth buf) as [[H0 _] | [[Hbig _] | (t' & ts' & Ht & _ & ->)]].
  - rewrite Htok in H0. discriminate.
  - rewrite Htok in Hbig. cbn [List.length] in Hbig. lia.
  - rewrite Htok in Ht. injection Ht as <- <-.
    destruct (lookup_cases depth (Z.of_nat (S (List.length ts))) t ts)
      as [[-> _] | [[-> _] | [[-> _] | [[-> _] | [[-> _] | [_ ->]]]]]];
      try (exfalso; apply Hunknown; cbn; tauto).
    eexists. repeat split.
Qed.

(** X3.  The command table is searched by exact name: a line of at most 15
    arguments whose first argument is the name of a command runs the
    handler of that command, with the number of arguments as [argc] and the
    arguments of the line as [argv]. *)
Theorem runcmd_dispatches_by_name :
  forall depth buf c ts,
    In c commands ->
    tokens buf = name c :: ts ->
    (List.length ts < 15)%nat ->
    runcmd depth buf
    = call depth (func c) (Z.of_nat (S (List.length ts))) (name c :: ts).
Proof.
  intros depth buf c ts Hc Htok Hlen.
  destruct (runcmd_cases depth buf) as [[H0 _] | [[Hbig _] | (t' & ts' & Ht & _ & ->)]].
  - rewrite Htok in H0. discriminate.
  - rewrite Htok in Hbig. cbn [List.length] in Hbig. lia.
  - rewrite Htok in Ht. injection Ht as <- <-.
    unfold commands in Hc.
    destruct Hc as [<- | [<- | [<- | [<- | [<- | []]]]]]; reflexivity.
Qed.

(** X4.  [runcmd] returns 0 or -2 and nothing else; in particular no line
    makes it return -1.  It returns -2 only for a line whose first argument
    is [step] or [exitstep]. *)
Theorem runcmd_return_values :
  forall depth buf m r m',
    runcmd depth buf m = Done r m' ->
    r = 0 \/ (r = -2 /\ is_step_command buf = true).
Proof.
  intros depth buf m r m' Hrun. unfold is_step_command.
  destruct (runcmd_cases depth buf) as [[_ E] | [[_ E] | (t & ts & Ht & _ & E)]];
    rewrite E in Hrun.
  - injection Hrun as <- _. left. reflexivity.
  - injection Hrun as <- _. left. reflexivity.
  - rewrite Ht.
    destruct (lookup_cases depth (Z.of_nat (S (List.length ts))) t ts)
      as [[-> L] | [[-> L] | [[-> L] | [[-> L] | [[-> L] | [_ L]]]]]];
      rewrite L in Hrun.
    + destruct (mon_help_grows (Z.of_nat (S (List.length ts))) ("help" :: ts) m)
        as (m1 & H1 & _).
      rewrite H1 in Hrun. injection Hrun as <- _. left. reflexivity.
    + destruct (mon_kerninfo_grows (Z.of_nat (S (List.length ts))) ("kerninfo" :: ts) m)
        as (m1 & H1 & _).
      rewrite H1 in Hrun. injection Hrun as <- _. left. reflexivity.
    + left. eapply mon_backtrace_grows. exact Hrun.
    + right. split; [| reflexivity]. eapply mon_step_same_memory. exact Hrun.
    + right. split; [| reflexivity]. eapply mon_exitstep_same_memory. exact Hrun.
    + injection Hrun as <- _. left. reflexivity.
Qed.

(** X5.  Only the arguments of a line count, not its layout: two lines with
    the same arguments run the same, so whitespace in front of a line or
    after it changes nothing. *)
Theorem runcmd_ignores_layout :
  forall depth b1 b2,
    tokens b1 = tokens b2 ->
    runcmd depth b1 = runcmd depth b2 /\
    forall c, is_whitespace c = true ->
              runcmd depth (String c b1) = runcmd depth b2 /\
              runcmd depth (b1 ++ String c EmptyString) = runcmd depth b2.
Proof.
  intros depth b1 b2 Htok.
  assert (Hsame : forall x y, tokens x = tokens y -> runcmd depth x = runcmd depth y).
  { intros x y Hxy.
    rewrite !(runcmd_tokens T_DEBUG T_BRKPT debuginfo_eip _start entry etext edata
                end_ KERNBASE), Hxy.
    reflexivity. }
  split; [apply Hsame; exact Htok |].
  intros c Hc. split; apply Hsame; rewrite <- Htok; unfold tokens.
  - cbn [split_ws]. rewrite Hc. reflexivity.
  - apply tokens_trailing_whitespace. exact Hc.
Qed.

(** X6.  Only [step] and [exitstep] touch the trap frame: for a line
    whose first argument is neither, the trap frame is as it was however
    the command ends (a return, a panic of [backtrace] or a walk that does
    not end). *)
Theorem runcmd_keeps_trap_frame :
  forall depth buf m,
    is_step_command buf = false ->
    m_tf (end_state (runcmd depth buf m)) = m_tf m.
Proof.
  intros depth buf m. unfold is_step_command.
  destruct (runcmd_cases depth buf) as [[_ E] | [[_ E] | (t & ts & Ht & _ & E)]];
    rewrite E.
  - reflexivity.
  - reflexivity.
  - rewrite Ht.
    destruct (lookup_cases depth (Z.of_nat (S (List.length ts))) t ts)
      as [[-> L] | [[-> L] | [[-> L] | [[-> L] | [[-> L] | [_ L]]]]]];
      rewrite L; intros Hother.
    + destruct (mon_help_grows (Z.of_nat (S (List.length ts))) ("help" :: ts) m)
        as (m1 & H1 & G1).
      rewrite H1. apply G1.
    + destruct (mon_kerninfo_grows (Z.of_nat (S (List.length ts))) ("kerninfo" :: ts) m)
        as (m1 & H1 & G1).
      rewrite H1. apply G1.
    + apply (mon_backtrace_grows depth (Z.of_nat (S (List.length ts)))
               ("backtrace" :: ts) m).
    + discriminate.
    + discriminate.
    + reflexivity.
Qed.

Lemma runcmd_quiet depth buf m :
  is_quiet_line buf = true ->
  exists m', runcmd depth buf m = Done 0 m' /\ grows m m'.
Proof.
  unfold is_quiet_line. intros Hquiet.
  destruct (runcmd_cases depth buf) as [[_ E] | [[_ E] | (t & ts & Ht & _ & E)]];
    rewrite E.
  - exists m. split; [reflexivity | apply grows_refl].
  - eexists. split; [reflexivity | apply (grows_add_console m [_])].
  - rewrite Ht in Hquiet.
    destruct (lookup_cases depth (Z.of_nat (S (List.length ts))) t ts)
      as [[-> L] | [[-> L] | [[-> L] | [[-> L] | [[-> L] | [_ L]]]]]];
      rewrite L; try discriminate.
    + apply mon_help_grows.
    + apply mon_kerninfo_grows.
    + eexists. split; [reflexivity | apply (grows_add_console m [_])].
Qed.

Lemma monitor_loop_quiet depth lines : forall m,
  forallb is_quiet_input lines = true ->
  monitor_loop depth lines m
  = Stopped AwaitInput
            (after_lines (fun b m0 => end_state (runcmd depth b m0)) lines m) /\
  grows m (after_lines (fun b m0 => end_state (runcmd depth b m0)) lines m).
Proof.
  induction lines as [| l rest IH]; intros m Hquiet.
  - split; [reflexivity | apply grows_refl].
  - cbn [forallb] in Hquiet. apply andb_true_iff in Hquiet.
    destruct Hquiet as [Hl Hrest].
    destruct l as [b |]; cbn [Monitor.monitor_loop after_lines].
    + destruct (runcmd_quiet depth b m Hl) as (m1 & Hrun & G1).
      unfold bind at 1. rewrite Hrun. cbn [end_state Z.ltb Z.compare].
      destruct (IH m1 Hrest) as [Hloop G2].
      split; [exact Hloop | eapply grows_trans; eassumption].
    + apply IH. exact Hrest.
Qed.

(** X7.  [monitor] prints the welcome line and the hint, then the trap
    frame if it was given one, and reads lines.  As long as no line starts
    with [backtrace], [step] or [exitstep] it never returns: every line is
    run through [runcmd], one after the other in the order read and each
    from the state the one before left (null results of [readline] are
    skipped), and [monitor] ends up waiting in [readline] with the trap
    frame as it was. *)
Theorem monitor_stays_on_quiet_input :
  forall depth lines m,
    forallb is_quiet_input lines = true ->
    let banner :=
      ([Cprintf "Welcome to the JOS kernel monitor!\n" [];
        Cprintf "Type 'help' for a list of commands.\n" []]
         ++ match m_tf m with
            | Some tf => [PrintTrapframe tf]
            | None => []
            end)%list in
    let m' := after_lines (fun b m0 => end_state (runcmd depth b m0)) lines
                          (add_console m banner) in
    monitor depth lines m = Stopped AwaitInput m' /\
    m_tf m' = m_tf m.
Proof.
  intros depth lines m Hquiet banner m'.
  assert (Hstart : monitor depth lines m
                   = monitor_loop depth lines (add_console m banner)).
  { unfold Monitor.monitor, banner, add_console.
    cbv [bind cprintf print_trapframe modify gets ret].
    destruct m as [tf con mem ebp]. cbn [m_tf m_console m_mem m_ebp].
    destruct tf as [tf |]; cbn [m_tf m_console m_mem m_ebp];
      rewrite <- ?app_assoc; reflexivity. }
  destruct (monitor_loop_quiet depth lines (add_console m banner) Hquiet)
    as [Hloop Hgrows].
  split.
  - rewrite Hstart. exact Hloop.
  - apply Hgrows.
Qed.

End Commands.

(** ** The step commands, composed *)

Lemma set_then_clear_again e s c :
  is_uint32 e -> 0 <= s < 32 -> 0 <= c < 32 -> s <> c ->
  forall s' c', (s' = s /\ c' = c) \/ (s' = c /\ c' = s) ->
  set_then_clear (set_then_clear e s' c') s c = set_then_clear e s c.
Proof.
  intros He Hs Hc Hsc s' c' Hprev.
  assert (He1 : is_uint32 (set_then_clear e s' c')) by apply wrap32_range.
  destruct (set_then_clear_bits e s c He Hs Hc Hsc) as (A1 & A2 & A3).
  destruct (set_then_clear_bits (set_then_clear e s' c') s c He1 Hs Hc Hsc)
    as (B1 & B2 & B3).
  assert (Hprev_bits : forall i, i <> s -> i <> c ->
            Z.testbit (set_then_clear e s' c') i = Z.testbit e i).
  { destruct Hprev as [[-> ->] | [-> ->]].
    - apply (set_then_clear_bits e s c He Hs Hc Hsc).
    - intros i His Hic.
      apply (set_then_clear_bits e c s He Hc Hs (not_eq_sym Hsc)); assumption. }
  apply Z.bits_inj'. intros i _.
  destruct (Z.eq_dec i s) as [-> | His]; [rewrite A1, B1; reflexivity |].
  destruct (Z.eq_dec i c) as [-> | Hic]; [rewrite A2, B2; reflexivity |].
  rewrite A3, B3 by assumption. apply Hprev_bits; assumption.
Qed.

Section StepComposed.

Import Monitor.

Variables T_DEBUG T_BRKPT : Z.

Local Abbreviation mon_step := (Monitor.mon_step T_DEBUG T_BRKPT).
Local Abbreviation mon_exitstep := (Monitor.mon_exitstep T_DEBUG T_BRKPT).

Lemma mon_exitstep_not_stepping m tf argc argv :
  m_tf m = Some tf ->
  tf_trapno tf = T_DEBUG \/ tf_trapno tf <> T_BRKPT ->
  Z.testbit (tf_eflags tf) 8 = false ->
  mon_exitstep argc argv m
  = Stopped (Panic "Not in single stepping mode when calling exitstep\n") m.
Proof.
  intros Htf Hcause Hbit.
  unfold Monitor.mon_exitstep, bind, deref_tf. rewrite Htf.
  assert (Hguard : negb (tf_trapno tf =? T_DEBUG) && (tf_trapno tf =? T_BRKPT)
                   = false).
  { destruct Hcause as [-> | Hb].
    - rewrite Z.eqb_refl. reflexivity.
    - apply Z.eqb_neq in Hb. rewrite Hb. apply andb_false_r. }
  rewrite Hguard. change 256 with (2 ^ 8).
  rewrite testbit_land_pow2 by lia. rewrite Hbit. reflexivity.
Qed.

(** X8.  On a debug or breakpoint trap, [step] given twice is [step] given
    once: the second call finds the trap flag set and the resume flag clear
    and leaves the flags as they are.  On a debug trap with the trap flag
    set, [step] after [exitstep] leaves the flags as [step] alone does. *)
Theorem mon_step_settles :
  forall m tf argc argv,
    m_tf m = Some tf -> is_uint32 (tf_eflags tf) ->
    (tf_trapno tf = T_DEBUG \/ tf_trapno tf = T_BRKPT ->
     bind (mon_step argc argv) (fun _ => mon_step argc argv) m
     = mon_step argc argv m)
    /\
    (tf_trapno tf = T_DEBUG -> Z.testbit (tf_eflags tf) 8 = true ->
     bind (mon_exitstep argc argv) (fun _ => mon_step argc argv) m
     = mon_step argc argv m).
Proof.
  intros m tf argc argv Htf He. split.
  - intros Hcause. unfold bind at 1.
    rewrite (mon_step_run T_DEBUG T_BRKPT m tf) by assumption.
    rewrite (mon_step_run T_DEBUG T_BRKPT
               (with_eflags m tf (set_then_clear (tf_eflags tf) 8 16))
               (mkTrapframe (tf_ebp tf) (tf_trapno tf) (tf_eip tf)
                            (set_then_clear (tf_eflags tf) 8 16)))
      by (try reflexivity; exact Hcause).
    unfold with_eflags. cbn [tf_ebp tf_trapno tf_eip tf_eflags m_console m_mem m_ebp].
    rewrite (set_then_clear_again (tf_eflags tf) 8 16) by (try lia; tauto).
    reflexivity.
  - intros Hcause Hbit. unfold bind at 1.
    rewrite (mon_exitstep_run T_DEBUG T_BRKPT m tf) by (try left; assumption).
    rewrite (mon_step_run T_DEBUG T_BRKPT m tf) by (try left; assumption).
    rewrite (mon_step_run T_DEBUG T_BRKPT
               (with_eflags m tf (set_then_clear (tf_eflags tf) 16 8))
               (mkTrapframe (tf_ebp tf) (tf_trapno tf) (tf_eip tf)
                            (set_then_clear (tf_eflags tf) 16 8)))
      by (try reflexivity; left; exact Hcause).
    unfold with_eflags. cbn [tf_ebp tf_trapno tf_eip tf_eflags m_console m_mem m_ebp].
    rewrite (set_then_clear_again (tf_eflags tf) 8 16) by (try lia; tauto).
    reflexivity.
Qed.

(** X9.  [exitstep] cannot be given twice in a row: where the first call
    runs (its trap-cause check passes and the trap flag is set), it clears
    the trap flag, and the second call panics with "Not in single stepping
    mode", leaving the flags as the first call set them. *)
Theorem mon_exitstep_twice_panics :
  forall m tf argc argv,
    m_tf m = Some tf -> is_uint32 (tf_eflags tf) ->
    tf_trapno tf = T_DEBUG \/ tf_trapno tf <> T_BRKPT ->
    Z.testbit (tf_eflags tf) 8 = true ->
    bind (mon_exitstep argc argv) (fun _ => mon_exitstep argc argv) m
    = Stopped (Panic "Not in single stepping mode when calling exitstep\n")
              (with_eflags m tf (set_then_clear (tf_eflags tf) 16 8)).
Proof.
  intros m tf argc argv Htf He Hcause Hbit. unfold bind at 1.
  rewrite (mon_exitstep_run T_DEBUG T_BRKPT m tf) by assumption.
  apply (mon_exitstep_not_stepping
           (with_eflags m tf (set_then_clear (tf_eflags tf) 16 8))
           (mkTrapframe (tf_ebp tf) (tf_trapno tf) (tf_eip tf)
                        (set_then_clear (tf_eflags tf) 16 8))).
  - reflexivity.
  - exact Hcause.
  - apply (set_then_clear_bits (tf_eflags tf) 16 8); [assumption | lia | lia | lia].
Qed.

End StepComposed.

(** ** The stack unwinder on a cycle *)

Section UnwinderCycle.

Import Monitor.

Variable debuginfo_eip : Z -> option Eipdebuginfo.

Local Abbreviation backtrace_loop := (Monitor.backtrace_loop debuginfo_eip).
Local Abbreviation mon_backtrace := (Monitor.mon_backtrace debuginfo_eip).

Lemma backtrace_loop_short fps : forall outs ebp ebp' m depth,
  follow (m_mem m) ebp fps = Some ebp' ->
  map (resolved debuginfo_eip (m_mem m)) fps = map Some outs ->
  (depth < List.length fps)%nat ->
  exists m', backtrace_loop depth ebp m = Stopped OutOfFuel m' /\
             m_mem m' = m_mem m.
Proof.
  intros outs ebp ebp' m depth Hfollow Hres Hshort.
  rewrite <- (firstn_skipn depth fps) in Hfollow.
  rewrite follow_app in Hfollow.
  destruct (follow (m_mem m) ebp (firstn depth fps)) as [e1 |] eqn:Hpre;
    [| discriminate].
  destruct (skipn depth fps) as [| fp post] eqn:Hpost.
  { pose proof (length_skipn depth fps) as Hl. rewrite Hpost in Hl.
    cbn in Hl. lia. }
  cbn [follow] in Hfollow.
  destruct (Z.eqb_spec e1 fp) as [-> |]; [| discriminate].
  destruct (Z.eqb_spec fp 0) as [| Hnz]; [discriminate |].
  assert (Hres' : map (resolved debuginfo_eip (m_mem m)) (firstn depth fps)
                  = map Some (firstn depth outs)).
  { rewrite <- !firstn_map, Hres. reflexivity. }
  pose proof (backtrace_loop_frames debuginfo_eip (firstn depth fps)
                (firstn depth outs) ebp fp m 0 Hpre Hres') as Hrun.
  rewrite length_firstn, Nat.min_l, Nat.add_0_r in Hrun by lia.
  rewrite Hrun. cbn [Monitor.backtrace_loop].
  apply Z.eqb_neq in Hnz. rewrite Hnz.
  eexists. split; reflexivity.
Qed.

Lemma backtrace_loop_cycle fps outs ebp mem :
  fps <> [] ->
  follow mem ebp fps = Some ebp ->
  map (resolved debuginfo_eip mem) fps = map Some outs ->
  forall depth m,
    m_mem m = mem ->
    exists m', backtrace_loop depth ebp m = Stopped OutOfFuel m'.
Proof.
  intros Hne Hfollow Hres depth.
  induction depth as [depth IH] using lt_wf_ind. intros m Hmem. subst mem.
  destruct (Nat.lt_ge_cases depth (List.length fps)) as [Hshort | Hlong].
  - destruct (backtrace_loop_short fps outs ebp ebp m depth Hfollow Hres Hshort)
      as (m' & Hrun & _).
    exists m'. exact Hrun.
  - replace depth with (List.length fps + (depth - List.length fps))%nat by lia.
    rewrite (backtrace_loop_frames debuginfo_eip fps outs ebp ebp m _ Hfollow Hres).
    apply IH.
    + destruct fps; [congruence | cbn [List.length] in *; lia].
    + reflexivity.
Qed.

(** X10.  On a chain of frames that leads back to its first frame, with
    every return address resolving, the walk of [mon_backtrace] has no end:
    whatever the budget of iterations, it is used up before the command
    returns. *)
Theorem backtrace_never_ends_on_cycle :
  forall m fps outs argc argv,
    fps <> [] ->
    follow (m_mem m) (m_ebp m) fps = Some (m_ebp m) ->
    map (resolved debuginfo_eip (m_mem m)) fps = map Some outs ->
    forall depth,
      exists m', mon_backtrace depth argc argv m = Stopped OutOfFuel m'.
Proof.
  intros m fps outs argc argv Hne Hfollow Hres depth.
  rewrite mon_backtrace_unfold.
  destruct (backtrace_loop_cycle fps outs (m_ebp m) (m_mem m) Hne Hfollow Hres depth
              (add_console m [Cprintf "Stack backtrace:\n" []]) eq_refl)
    as (m' & Hrun).
  rewrite Hrun. exists m'. reflexivity.
Qed.

End UnwinderCycle.

(** ** More of the file client *)

Lemma lookups_app h1 h2 : lookups (h1 ++ h2) = (lookups h1 + lookups h2)%nat.
Proof.
  induction h1 as [| c h1 IH]; simpl.
  - reflexivity.
  - destruct c; simpl; rewrite IH; reflexivity.
Qed.

Lemma targets_app h1 h2 : targets (h1 ++ h2) = (targets h1 ++ targets h2)%list.
Proof.
  induction h1 as [| c h1 IH]; simpl.
  - reflexivity.
  - destruct c; simpl; rewrite IH; reflexivity.
Qed.

Section ClientMore.

Import FileClient.

Variables PGSIZE MAXPATHLEN E_BAD_PATH : Z.
Variable thisenv_env_id : Z.
Variable fd_alloc_ans : list Call -> Z * Z.
Variable fd_close_ans : list Call -> Z.
Variable ipc_find_env_ans : list Call -> Z.
Variable ipc_recv_ans : list Call -> Z * Fsipc.
Variable fd2num : Z -> Z.

Local Abbreviation fsipc := (FileClient.fsipc ipc_find_env_ans ipc_recv_ans).
Local Abbreviation open :=
  (FileClient.open MAXPATHLEN E_BAD_PATH thisenv_env_id fd_alloc_ans fd_close_ans
                   ipc_find_env_ans ipc_recv_ans fd2num).
Local Abbreviation devfile_flush :=
  (FileClient.devfile_flush ipc_find_env_ans ipc_recv_ans).
Local Abbreviation devfile_read :=
  (FileClient.devfile_read PGSIZE ipc_find_env_ans ipc_recv_ans).
Local Abbreviation devfile_stat :=
  (FileClient.devfile_stat ipc_find_env_ans ipc_recv_ans).
Local Abbreviation devfile_trunc :=
  (FileClient.devfile_trunc ipc_find_env_ans ipc_recv_ans).
Local Abbreviation sync := (FileClient.sync ipc_find_env_ans ipc_recv_ans).

Lemma fsipc_result_range type dstva st r st1 :
  fsipc type dstva st = Done r st1 -> - 2 ^ 31 <= r < 2 ^ 31.
Proof.
  rewrite fsipc_run. intros H. injection H as <- _. apply sint32_range.
Qed.

(** X12.  Two requests in a row from a client that has no server cached:
    when the lookup answers a server other than 0, it is made once and both
    requests go to that server; when it answers 0, nothing is cached and
    the second request looks the server up again. *)
Theorem fsipc_looks_up_once :
  forall t1 d1 t2 d2 st,
    fsenv st = 0 ->
    exists r st2,
      bind (fsipc t1 d1) (fun _ => fsipc t2 d2) st = Done r st2 /\
      let e := ipc_find_env_ans (calls st ++ [C_ipc_find_env ENV_TYPE_FS])%list in
      (e <> 0 ->
       lookups (calls st2) = S (lookups (calls st)) /\
       targets (calls st2) = (targets (calls st) ++ [e; e])%list /\
       fsenv st2 = e) /\
      (e = 0 -> lookups (calls st2) = S (S (lookups (calls st)))).
Proof.
  intros t1 d1 t2 d2 st Henv. unfold bind. rewrite fsipc_run, fsipc_run.
  eexists. eexists. split; [reflexivity |].
  cbn [calls fsenv fsipcbuf]. unfold fsipc_calls, fsipc_env.
  cbn [calls fsenv fsipcbuf]. rewrite Henv. cbn [Z.eqb].
  set (e := ipc_find_env_ans (calls st ++ [C_ipc_find_env ENV_TYPE_FS])%list).
  cbv zeta. split.
  - intros He. apply Z.eqb_neq in He. rewrite He.
    rewrite !lookups_app, !targets_app. cbn. rewrite ?app_nil_r.
    split; [lia | split; [| reflexivity]].
    rewrite <- app_assoc. reflexivity.
  - intros He. rewrite He. cbn [Z.eqb].
    rewrite !lookups_app. cbn. lia.
Qed.

(** X13.  When the path is short enough but [fd_alloc] fails, [open]
    returns the error of [fd_alloc] as it is: the request page is not
    written, nothing is sent to the server and no descriptor is closed. *)
Theorem open_alloc_failure :
  forall path mode st r0 fd,
    is_uint32 MAXPATHLEN ->
    strlen path < MAXPATHLEN ->
    let h1 := (calls st ++ [C_cprintf "[open] path: %s\n" [AStr path]; C_fd_alloc])%list in
    fd_alloc_ans h1 = (r0, fd) ->
    r0 < 0 ->
    open path mode st = Done r0 (mkClient (fsipcbuf st) (fsenv st) h1).
Proof.
  intros path mode st r0 fd Hmax Hshort h1 Halloc Hr0.
  run_client. rewrite (wrap32_small MAXPATHLEN Hmax).
  destruct (Z.leb_spec MAXPATHLEN (strlen path)); [lia |].
  cbn [fsipcbuf fsenv calls]. rewrite <- app_assoc.
  change ([C_cprintf "[open] path: %s\n" [AStr path]] ++ [C_fd_alloc])%list
    with [C_cprintf "[open] path: %s\n" [AStr path]; C_fd_alloc].
  fold h1. rewrite Halloc.
  destruct (Z.ltb_spec r0 0); [reflexivity | lia].
Qed.

(** X14.  [devfile_read] on a reply count [r >= 0].  When [r] is within
    [n] and a page, the reply page holds a read reply of at least [r] bytes
    and the caller's buffer has room for [r] bytes, it returns [r] and the
    buffer holds the first [r] bytes of the reply followed by what it held
    beyond them, its size unchanged.  When [r] is 0 the buffer is as it
    was.  A count above [n] or above a page fails an assertion. *)
Theorem devfile_read_copies_reply :
  forall fd buf n st r st1,
    0 <= PGSIZE -> is_uint32 n ->
    fsipc FSREQ_READ 0
          (mkClient (Fsipc_read (id (fd_file fd)) n) (fsenv st) (calls st))
    = Done r st1 ->
    0 <= r ->
    (forall reply,
        fsipcbuf st1 = Fsipc_readRet reply ->
        r <= Z.of_nat (List.length reply) ->
        r <= Z.of_nat (List.length buf) ->
        r <= n -> r <= PGSIZE ->
        devfile_read fd buf n st
        = Done (r, (firstn (Z.to_nat r) reply ++ skipn (Z.to_nat r) buf)%list) st1 /\
        List.length (firstn (Z.to_nat r) reply ++ skipn (Z.to_nat r) buf)%list
        = List.length buf) /\
    (r = 0 -> devfile_read fd buf n st = Done (0, buf) st1) /\
    (n < r ->
     devfile_read fd buf n st = Stopped (Panic "assertion failed: r <= n") st1) /\
    (r <= n -> PGSIZE < r ->
     devfile_read fd buf n st = Stopped (Panic "assertion failed: r <= PGSIZE") st1).
Proof.
  intros fd buf n st r st1 Hpg Hn Hfs Hr.
  pose proof (fsipc_result_range _ _ _ _ _ Hfs) as Hrange.
  assert (Hrun : devfile_read fd buf n st
                 = if r <=? n
                   then if r <=? PGSIZE
                        then Done (r, memmove buf (readRet_ret_buf (fsipcbuf st1)) r) st1
                        else Stopped (Panic "assertion failed: r <= PGSIZE") st1
                   else Stopped (Panic "assertion failed: r <= n") st1).
  { run_client. rewrite Hfs.
    destruct (Z.ltb_spec r 0); [lia |].
    rewrite (wrap32_small r) by (unfold is_uint32; lia).
    destruct (r <=? n); [| reflexivity].
    destruct (r <=? PGSIZE); reflexivity. }
  rewrite Hrun. unfold memmove. repeat split.
  - destruct (Z.leb_spec r n); [| lia]. destruct (Z.leb_spec r PGSIZE); [| lia].
    rewrite H. reflexivity.
  - rewrite length_app, length_firstn, length_skipn. lia.
  - intros ->. unfold is_uint32 in Hn.
    destruct (Z.leb_spec 0 n); [| lia].
    destruct (Z.leb_spec 0 PGSIZE); [reflexivity | lia].
  - intros H1. destruct (Z.leb_spec r n); [lia | reflexivity].
  - intros H1 H2.
    destruct (Z.leb_spec r n); [| lia]. destruct (Z.leb_spec r PGSIZE); [lia |].
    reflexivity.
Qed.

(** X15.  [devfile_stat] on a result that is not negative, with a stat
    reply in the page, returns 0 whatever the value of the result, and all
    three fields of the caller's record are those of the reply: nothing of
    the record given is kept. *)
Theorem devfile_stat_copies_reply :
  forall fd rec st r st1 nm sz isdir,
    fsipc FSREQ_STAT 0
          (mkClient (Fsipc_stat (id (fd_file fd))) (fsenv st) (calls st))
    = Done r st1 ->
    0 <= r ->
    fsipcbuf st1 = Fsipc_statRet nm sz isdir ->
    devfile_stat fd rec st = Done (0, mkStat nm sz isdir) st1.
Proof.
  intros fd rec st r st1 nm sz isdir Hfs Hr Hpage. run_client. rewrite Hfs.
  destruct (Z.ltb_spec r 0); [lia |].
  cbn [fsipcbuf]. rewrite Hpage. reflexivity.
Qed.

Lemma fsipc_forward type dstva st0 :
  exists st',
    fsipc type dstva st0 = Done (sint32 (fst (ipc_recv_ans (calls st')))) st' /\
    requests (calls st') = (requests (calls st0) ++ [(type, fsipcbuf st0)])%list.
Proof.
  exists (mkClient (snd (ipc_recv_ans (fsipc_calls ipc_find_env_ans type dstva st0)))
                   (fsipc_env ipc_find_env_ans st0)
                   (fsipc_calls ipc_find_env_ans type dstva st0)).
  split; [apply fsipc_run | apply fsipc_requests].
Qed.

(** X16.  [devfile_flush], [devfile_trunc] and [sync] each send one
    request and return the reply as it is, negative or not.  The request of
    [devfile_flush] carries the file identifier, that of [devfile_trunc]
    the file identifier and the new size; [sync] does not write the request
    page, so its request carries the page as the operation before left
    it. *)
Theorem flush_trunc_sync_forward :
  forall fd newsize st,
    (exists st',
        devfile_flush fd st = Done (sint32 (fst (ipc_recv_ans (calls st')))) st' /\
        requests (calls st')
        = (requests (calls st) ++ [(FSREQ_FLUSH, Fsipc_flush (id (fd_file fd)))])%list)
    /\
    (exists st',
        devfile_trunc fd newsize st
        = Done (sint32 (fst (ipc_recv_ans (calls st')))) st' /\
        requests (calls st')
        = (requests (calls st)
             ++ [(FSREQ_SET_SIZE, Fsipc_set_size (id (fd_file fd)) newsize)])%list)
    /\
    (exists st',
        sync st = Done (sint32 (fst (ipc_recv_ans (calls st')))) st' /\
        requests (calls st')
        = (requests (calls st) ++ [(FSREQ_SYNC, fsipcbuf st)])%list).
Proof.
  intros fd newsize st. repeat split.
  - apply (fsipc_forward FSREQ_FLUSH 0
             (mkClient (Fsipc_flush (id (fd_file fd))) (fsenv st) (calls st))).
  - apply (fsipc_forward FSREQ_SET_SIZE 0
             (mkClient (Fsipc_set_size (id (fd_file fd)) newsize) (fsenv st) (calls st))).
  - apply (fsipc_forward FSREQ_SYNC 0 st).
Qed.

End ClientMore.

(** ** Concrete runs for the further properties *)

Lemma runcmd_blank_line_witness :
  exists m',
    x86_runcmd 8 "   " (machine_of (debug_frame 0x202)) = Done 0 m' /\
    Monitor.m_tf m' = Monitor.m_tf (machine_of (debug_frame 0x202)) /\
    Monitor.m_console m' = Monitor.m_console (machine_of (debug_frame 0x202)).
Proof.
  apply (runcmd_blank_line Monitor.T_DEBUG_x86 Monitor.T_BRKPT_x86 sample_debuginfo
           0x10000c 0xf010000c 0xf0101a75 0xf0112300 0xf0112960 0xf0000000).
  reflexivity.
Defined.

Lemma runcmd_unknown_command_witness :
  exists m',
    x86_runcmd 8 "quit now" (machine_of (debug_frame 0x202)) = Done 0 m' /\
    Monitor.m_tf m' = Monitor.m_tf (machine_of (debug_frame 0x202)) /\
    Monitor.m_console m'
    = (Monitor.m_console (machine_of (debug_frame 0x202))
         ++ [Monitor.Cprintf "Unknown command '%s'\n" [AStr "quit"]])%list.
Proof.
  apply (runcmd_unknown_command Monitor.T_DEBUG_x86 Monitor.T_BRKPT_x86
           sample_debuginfo 0x10000c 0xf010000c 0xf0101a75 0xf0112300 0xf0112960
           0xf0000000 8%nat "quit now" "quit" ["now"]).
  - reflexivity.
  - simpl. lia.
  - simpl. intros [H | [H | [H | [H | [H | []]]]]]; discriminate.
Defined.

Lemma runcmd_keeps_trap_frame_witness :
  Monitor.m_tf (end_state (x86_runcmd 2 "backtrace"
                             (Monitor.mkMachine (Some (debug_frame 0x302)) []
                                                cyclic_mem 0xf010ffb8)))
  = Some (debug_frame 0x302).
Proof.
  apply (runcmd_keeps_trap_frame Monitor.T_DEBUG_x86 Monitor.T_BRKPT_x86
           sample_debuginfo 0x10000c 0xf010000c 0xf0101a75 0xf0112300 0xf0112960
           0xf0000000 2%nat "backtrace"
           (Monitor.mkMachine (Some (debug_frame 0x302)) [] cyclic_mem 0xf010ffb8)).
  reflexivity.
Defined.

Lemma runcmd_dispatches_by_name_witness :
  x86_runcmd 8 " kerninfo  all"
  = x86_call 8%nat Monitor.H_mon_kerninfo (Z.of_nat (S (List.length ["all"])))
             ["kerninfo"; "all"].
Proof.
  apply (runcmd_dispatches_by_name Monitor.T_DEBUG_x86 Monitor.T_BRKPT_x86
           sample_debuginfo 0x10000c 0xf010000c 0xf0101a75 0xf0112300 0xf0112960
           0xf0000000 8%nat " kerninfo  all"
           (Monitor.mkCommand "kerninfo" "Display information about the kernel"
                              Monitor.H_mon_kerninfo)
           ["all"]).
  - right. left. reflexivity.
  - reflexivity.
  - simpl. lia.
Defined.

Lemma runcmd_return_values_witness :
  -2 = 0 \/ (-2 = -2 /\ is_step_command "exitstep" = true).
Proof.
  apply (runcmd_return_values Monitor.T_DEBUG_x86 Monitor.T_BRKPT_x86
           sample_debuginfo 0x10000c 0xf010000c 0xf0101a75 0xf0112300 0xf0112960
           0xf0000000 8%nat "exitstep" (machine_of (debug_frame 0x302)) (-2)
           (machine_of (debug_frame 0x10202))).
  reflexivity.
Defined.

Lemma runcmd_ignores_layout_witness :
  x86_runcmd 8 "help  me" = x86_runcmd 8 "  help me  ".
Proof.
  apply (runcmd_ignores_layout Monitor.T_DEBUG_x86 Monitor.T_BRKPT_x86
           sample_debuginfo 0x10000c 0xf010000c 0xf0101a75 0xf0112300 0xf0112960
           0xf0000000 8%nat "help  me" "  help me  ").
  reflexivity.
Defined.

Lemma monitor_stays_on_quiet_input_witness :
  x86_monitor 8 [Some "help"; None; Some "  "; Some "quit"]
              (machine_of (debug_frame 0x202))
  = Stopped AwaitInput
      (after_lines (fun b m0 => end_state (x86_runcmd 8 b m0))
         [Some "help"; None; Some "  "; Some "quit"]
         (add_console (machine_of (debug_frame 0x202))
            [Monitor.Cprintf "Welcome to the JOS kernel monitor!\n" [];
             Monitor.Cprintf "Type 'help' for a list of commands.\n" [];
             Monitor.PrintTrapframe (debug_frame 0x202)]))
  /\
  Monitor.m_tf
    (after_lines (fun b m0 => end_state (x86_runcmd 8 b m0))
       [Some "help"; None; Some "  "; Some "quit"]
       (add_console (machine_of (debug_frame 0x202))
          [Monitor.Cprintf "Welcome to the JOS kernel monitor!\n" [];
           Monitor.Cprintf "Type 'help' for a list of commands.\n" [];
           Monitor.PrintTrapframe (debug_frame 0x202)]))
  = Some (debug_frame 0x202).
Proof.
  apply (monitor_stays_on_quiet_input Monitor.T_DEBUG_x86 Monitor.T_BRKPT_x86
           sample_debuginfo 0x10000c 0xf010000c 0xf0101a75 0xf0112300 0xf0112960
           0xf0000000 8%nat [Some "help"; None; Some "  "; Some "quit"]
           (machine_of (debug_frame 0x202))).
  reflexivity.
Defined.

(** The same run, with its console written out: the banner, the five lines
    of [help] and the diagnostic for [quit]. *)
Example monitor_quiet_run_console :
  Monitor.m_console
    (end_state (x86_monitor 8 [Some "help"; None; Some "  "; Some "quit"]
                            (machine_of (debug_frame 0x202))))
  = [ Monitor.Cprintf "Welcome to the JOS kernel monitor!\n" [];
      Monitor.Cprintf "Type 'help' for a list of commands.\n" [];
      Monitor.PrintTrapframe (debug_frame 0x202);
      Monitor.Cprintf "%s - %s\n" [AStr "help"; AStr "Display this list of commands"];
      Monitor.Cprintf "%s - %s\n"
        [AStr "kerninfo"; AStr "Display information about the kernel"];
      Monitor.Cprintf "%s - %s\n" [AStr "backtrace"; AStr "Display all stack frames"];
      Monitor.Cprintf "%s - %s\n"
        [AStr "step"; AStr "Single step when already in debugging console"];
      Monitor.Cprintf "%s - %s\n" [AStr "exitstep"; AStr "Exit single stepping"];
      Monitor.Cprintf "Unknown command '%s'\n" [AStr "quit"] ].
Proof. reflexivity. Qed.

Lemma mon_step_settles_witness :
  bind (Monitor.mon_step 1 3 1 ["step"]) (fun _ => Monitor.mon_step 1 3 1 ["step"])
       (machine_of (brkpt_frame 0x10202))
  = Monitor.mon_step 1 3 1 ["step"] (machine_of (brkpt_frame 0x10202)).
Proof.
  apply (mon_step_settles 1 3 (machine_of (brkpt_frame 0x10202)) (brkpt_frame 0x10202)
           1 ["step"]).
  - reflexivity.
  - unfold is_uint32. simpl. lia.
  - right. reflexivity.
Defined.

Lemma mon_exitstep_twice_panics_witness :
  bind (Monitor.mon_exitstep 1 3 1 ["exitstep"])
       (fun _ => Monitor.mon_exitstep 1 3 1 ["exitstep"])
       (machine_of (debug_frame 0x302))
  = Stopped (Panic "Not in single stepping mode when calling exitstep\n")
            (with_eflags (machine_of (debug_frame 0x302)) (debug_frame 0x302)
                         (set_then_clear 0x302 16 8)).
Proof.
  apply (mon_exitstep_twice_panics 1 3 (machine_of (debug_frame 0x302))
           (debug_frame 0x302) 1 ["exitstep"]).
  - reflexivity.
  - unfold is_uint32. simpl. lia.
  - left. reflexivity.
  - reflexivity.
Defined.

Lemma backtrace_never_ends_on_cycle_witness :
  exists m',
    Monitor.mon_backtrace sample_debuginfo 5 1 ["backtrace"] cyclic_machine
    = Stopped OutOfFuel m'.
Proof.
  apply (backtrace_never_ends_on_cycle sample_debuginfo cyclic_machine [0xf010ffb8]
           [frame_line (frame_at cyclic_mem 0xf010ffb8)
              (Monitor.mkEipdebuginfo "kern/init.c" 24 "test_backtrace" 14 0xf0100040)]).
  - discriminate.
  - reflexivity.
  - reflexivity.
Defined.

Lemma fsipc_looks_up_once_witness :
  exists r st2,
    bind (FileClient.fsipc sample_find_env sample_server FileClient.FSREQ_SYNC 0)
         (fun _ => FileClient.fsipc sample_find_env sample_server
                                    FileClient.FSREQ_SYNC 0)
         fresh_client
    = Done r st2 /\
    lookups (FileClient.calls st2) = 1%nat /\
    targets (FileClient.calls st2) = [0x1001; 0x1001] /\
    FileClient.fsenv st2 = 0x1001.
Proof.
  destruct (fsipc_looks_up_once sample_find_env sample_server
              FileClient.FSREQ_SYNC 0 FileClient.FSREQ_SYNC 0 fresh_client eq_refl)
    as (r & st2 & Hrun & Hcached & _).
  exists r, st2. split; [exact Hrun |].
  apply Hcached. vm_compute. discriminate.
Defined.

Lemma open_alloc_failure_witness :
  FileClient.open 1024 12 0x1002 failing_fd_alloc sample_fd_close sample_find_env
                  sample_server sample_fd2num "/motd" 0 fresh_client
  = Done (-10)
         (FileClient.mkClient (FileClient.Fsipc_flush 0) 0
            [FileClient.C_cprintf "[open] path: %s\n" [AStr "/motd"];
             FileClient.C_fd_alloc]).
Proof.
  apply (open_alloc_failure 1024 12 0x1002 failing_fd_alloc sample_fd_close
           sample_find_env sample_server sample_fd2num "/motd" 0 fresh_client (-10) 0).
  - unfold is_uint32. lia.
  - vm_compute. reflexivity.
  - reflexivity.
  - lia.
Defined.

Lemma devfile_read_copies_reply_witness :
  FileClient.devfile_read 4096 sample_find_env serving_server sample_fd
                          [Byte.x01; Byte.x02; Byte.x03] 3 fresh_client
  = Done (2, [Byte.x68; Byte.x69; Byte.x03])
         (final_state
            (FileClient.fsipc sample_find_env serving_server FileClient.FSREQ_READ 0
               (FileClient.mkClient (FileClient.Fsipc_read 7 3) 0 []))).
Proof.
  apply (proj1 (devfile_read_copies_reply 4096 sample_find_env serving_server
                  sample_fd [Byte.x01; Byte.x02; Byte.x03] 3 fresh_client 2
                  (final_state
                     (FileClient.fsipc sample_find_env serving_server
                        FileClient.FSREQ_READ 0
                        (FileClient.mkClient (FileClient.Fsipc_read 7 3) 0 [])))
                  ltac:(lia) ltac:(unfold is_uint32; lia) eq_refl ltac:(lia))
           [Byte.x68; Byte.x69]).
  - reflexivity.
  - simpl. lia.
  - simpl. lia.
  - lia.
  - lia.
Defined.

Lemma devfile_stat_copies_reply_witness :
  FileClient.devfile_stat sample_find_env serving_server sample_fd sample_stat
                          fresh_client
  = Done (0, FileClient.mkStat "motd" 12 0)
         (final_state
            (FileClient.fsipc sample_find_env serving_server FileClient.FSREQ_STAT 0
               (FileClient.mkClient (FileClient.Fsipc_stat 7) 0 []))).
Proof.
  apply (devfile_stat_copies_reply sample_find_env serving_server sample_fd
           sample_stat fresh_client 0
           (final_state
              (FileClient.fsipc sample_find_env serving_server FileClient.FSREQ_STAT 0
                 (FileClient.mkClient (FileClient.Fsipc_stat 7) 0 [])))
           "motd" 12 0).
  - reflexivity.
  - lia.
  - reflexivity.
Defined.
